(** * JoulIAna: mailbox watcher and chat controller of [main.py]

    A shallow embedding of [src/main.py] and the properties of its poll cycle,
    its text decoder, its start-up validation and its chat state machine.

    Conventions of the embedding.
    - A Python [bytes] value is a [string] (one [ascii] per byte).  A Python
      [str] is represented by its UTF-8 encoding, again a [string]; substring
      tests on valid UTF-8 agree with substring tests on code points.
    - A call that may raise returns a [resultado]; exceptions carry their
      class, since [decodificar_texto] catches one class only.
    - Functions of the Python runtime and of the [email] package that the
      source calls are the fields of the class [Biblioteca]; the network
      services (POP3, SMTP, Telegram, Vertex AI) are the fields of the class
      [Exterior], each a transition of an abstract world.
    - The process state is a record; the code is written in a state and
      exception monad over it, with the external calls logged in a trace.
    - The two threads meet at the shared [BotState] only.  A chat turn
      ([responder_chat]) and a poll cycle (one turn of the loop of
      [ciclo_correos]) are each run to their end; interleavings inside a
      turn or a cycle are outside the embedding.
    - [load_dotenv] and the logging set-up of Section 2 of the source are
      taken to succeed: the environment is the one [os.getenv] reads, and
      a log line is an event of the trace. *)

From Stdlib Require Import ZArith String Ascii List Bool Lia.
From stdpp Require Import gmap strings list pretty.

Open Scope string_scope.

(** ** Exceptions and results *)

Inductive Clase := UnicodeDecodeError | LookupError | ValueError | IndexError | OtraExcepcion.

Record Excepcion := { e_clase : Clase; e_texto : string }.

Inductive resultado (A : Type) :=
| Ok (a : A)
| Lanza (e : Excepcion).
Arguments Ok {A} a.
Arguments Lanza {A} e.

Definition es_ok {A} (r : resultado A) : bool :=
  match r with Ok _ => true | Lanza _ => false end.

Definition es_UnicodeDecodeError (e : Excepcion) : bool :=
  match e_clase e with UnicodeDecodeError => true | _ => false end.

(** ** String helpers (Python [str] and [bytes] operations) *)

(** [k in s] on strings. *)
Fixpoint contiene (k s : string) : bool :=
  String.prefix k s ||
  match s with
  | EmptyString => false
  | String _ r => contiene k r
  end.

(** [any(x in s for x in ks)]. *)
Definition alguna_en (ks : list string) (s : string) : bool :=
  existsb (fun x => contiene x s) ks.

(** [s.split(sep)] for a one-character separator. *)
Fixpoint str_split (sep : ascii) (s : string) : list string :=
  match s with
  | EmptyString => [EmptyString]
  | String c r =>
      if Ascii.eqb c sep then EmptyString :: str_split sep r
      else match str_split sep r with
           | [] => [String c EmptyString]
           | p :: ps => String c p :: ps
           end
  end.

(** [s.replace(c, "")] for a one-character [c]. *)
Fixpoint str_quitar (c : ascii) (s : string) : string :=
  match s with
  | EmptyString => EmptyString
  | String d r => if Ascii.eqb d c then str_quitar c r else String d (str_quitar c r)
  end.

(** A UTF-8 continuation byte, 10xxxxxx. *)
Definition es_continuacion (c : ascii) : bool :=
  let n := N_of_ascii c in (128 <=? n)%N && (n <? 192)%N.

(** [s[:n]]: the first [n] code points of a [str]. *)
Fixpoint tomar_cp (n : nat) (s : string) : string :=
  match s with
  | EmptyString => EmptyString
  | String c r =>
      if es_continuacion c then String c (tomar_cp n r)
      else match n with
           | O => EmptyString
           | S n' => String c (tomar_cp n' r)
           end
  end.

(** [b.decode('latin-1', errors='ignore')]: byte [b] is code point [b];
    no byte is invalid, so nothing is ignored. *)
Fixpoint latin1_decode (b : string) : string :=
  match b with
  | EmptyString => EmptyString
  | String c r =>
      let n := N_of_ascii c in
      if (n <? 128)%N then String c (latin1_decode r)
      else String (ascii_of_N (192 + n / 64)) (String (ascii_of_N (128 + n mod 64)) (latin1_decode r))
  end.

(** Python truthiness of an [Optional[str]]. *)
Definition verdadero (o : option string) : bool :=
  match o with
  | Some s => negb (s =? "")
  | None => false
  end.

(** [f"{o}"] for an [Optional[str]]. *)
Definition fmt (o : option string) : string :=
  match o with Some s => s | None => "None" end.

(** The double quote, for the texts that contain one. *)
Definition comilla : string := String "034"%char EmptyString.

(** ** The [email] package's message, as far as the source reads it *)

(** What [decodificar_texto] receives: [bytes], [str] or [None]. *)
Inductive Texto :=
| TBytes (b : string)
| TStr (s : string)
| TNone.

(** One node of [msg.walk()]. *)
Record Parte := {
  get_content_type : string;
  get_payload : resultado Texto;          (* get_payload(decode=True) *)
  get_content_charset : option string
}.

Record Mensaje := {
  m_subject : option string;              (* msg["Subject"] *)
  m_from : option string;                 (* the From header, if any *)
  is_multipart : bool;
  m_raiz : Parte;                         (* the message itself *)
  m_subpartes : list Parte                (* its descendants, in walk order *)
}.

Definition walk (msg : Mensaje) : list Parte := m_raiz msg :: m_subpartes msg.

(** ** Library functions the source calls *)

Class Biblioteca := {
  (** [s.lower()] and [s.strip()] *)
  str_lower : string -> string;
  str_strip : string -> string;
  (** [int(s)] *)
  py_int : string -> resultado Z;
  (** [b.decode(encoding)], strict: [UnicodeDecodeError] on undecodable
      bytes, [LookupError] on an unknown encoding name *)
  bytes_decode : string -> string -> resultado string;
  (** the order in which [for uid in nuevos] visits a set *)
  set_iter : gset string -> list string;
  set_iter_perm : forall s, set_iter s ≡ₚ elements s;
  (** [email.message_from_bytes] and [email.header.decode_header] *)
  message_from_bytes : string -> Mensaje;
  decode_header : string -> resultado (list (Texto * option string))
}.

(** ** Section 3 of the source: mail processing utilities *)

Section Utilidades.
Context {lib : Biblioteca}.

(** [encoding or 'utf-8'] *)
Definition encoding_o_utf8 (encoding : option string) : string :=
  if verdadero encoding then fmt encoding else "utf-8".

(** [decodificar_texto] (source lines 104-111). *)
Definition decodificar_texto (texto : Texto) (encoding : option string) : resultado string :=
  match texto with
  | TBytes b =>
      match bytes_decode (encoding_o_utf8 encoding) b with
      | Ok s => Ok s
      | Lanza e =>
          if es_UnicodeDecodeError e then Ok (latin1_decode b)
          else Lanza e
      end
  | TStr s => Ok s
  | TNone => Ok "None"
  end.

(** [obtener_asunto_y_remitente] (source lines 113-127): the [try] block
    first; the subject falls back to the raw header on any exception. *)
Definition decodificar_asunto (subject_raw : string) : resultado string :=
  match decode_header subject_raw with
  | Lanza e => Lanza e
  | Ok [] => Lanza {| e_clase := IndexError; e_texto := "list index out of range" |}
  | Ok ((subject_str, encoding) :: _) => decodificar_texto subject_str encoding
  end.

Definition obtener_asunto_y_remitente (msg : Mensaje) : string * string :=
  let subject_raw := m_subject msg in
  let subject_str :=
    if verdadero subject_raw then
      match decodificar_asunto (fmt subject_raw) with
      | Ok s => s
      | Lanza _ => fmt subject_raw
      end
    else "(Sin Asunto)" in
  let sender := match m_from msg with Some s => s | None => "Desconocido" end in
  (subject_str, sender).

(** The [try] block of [obtener_cuerpo] (source lines 132-143). *)
Definition cuerpo_de (msg : Mensaje) : resultado string :=
  if is_multipart msg then
    match find (fun part => get_content_type part =? "text/plain") (walk msg) with
    | Some part =>
        match get_payload part with
        | Ok payload => decodificar_texto payload (get_content_charset part)
        | Lanza e => Lanza e
        end
    | None => Ok "Sin contenido legible."
    end
  else
    match get_payload (m_raiz msg) with
    | Ok payload => decodificar_texto payload (get_content_charset (m_raiz msg))
    | Lanza e => Lanza e
    end.

(** The loop of [obtener_lista_uids_con_mapa] over the lines of UIDL
    (source lines 156-162). *)
Fixpoint leer_items (items : list string) (uids : gset string) (uid_map : gmap string Z)
  : resultado (gset string * gmap string Z) :=
  match items with
  | [] => Ok (uids, uid_map)
  | item :: resto =>
      match bytes_decode "utf-8" item with
      | Lanza e => Lanza e
      | Ok linea =>
          match str_split " "%char linea with
          | p0 :: uid :: _ =>
              match py_int p0 with
              | Lanza e => Lanza e
              | Ok num => leer_items resto ({[uid]} ∪ uids) (<[uid := num]> uid_map)
              end
          | _ => leer_items resto uids uid_map
          end
      end
  end.

(** Sender sanitisation of the poll loop (source lines 352-355). *)
Definition limpiar_remitente (remitente : string) : string :=
  if contiene "<" remitente then
    match str_split "<"%char remitente with
    | _ :: p1 :: _ => str_quitar ">"%char p1
    | _ => remitente
    end
  else remitente.

End Utilidades.

(** ** Configuration, shared state and the outside world *)

(** The module-level constants read from the environment. *)
Record Config := {
  TELEGRAM_TOKEN : option string;
  TELEGRAM_CHAT_ID : option string;
  EMAIL_SERVER : option string;
  EMAIL_PORT : Z;
  EMAIL_USER : option string;
  EMAIL_PASS : option string;
  PROJECT_ID : option string;
  LOCATION : string
}.

(** [class BotState]: the short-term memory shared by both loops. *)
Record BotState := {
  ultimo_remitente : option string;
  ultimo_asunto : option string;
  modo_respuesta : bool;
  modo_ticket : bool
}.

(** [BotState()]: the class defaults. *)
Definition estado_inicial : BotState :=
  {| ultimo_remitente := None; ultimo_asunto := None;
     modo_respuesta := false; modo_ticket := false |}.

(** The target of a Telegram call: [TELEGRAM_CHAT_ID] or [message.chat.id]. *)
Inductive Chat :=
| ChatConfig (id : option string)
| ChatId (id : Z).

(** A [telebot.types.Message], as far as the handler reads it. *)
Record MensajeTg := { text : string; chat_id : Z }.

(** The message [enviar_correo_respuesta] builds. *)
Record Correo := {
  c_subject : string;
  c_from : option string;
  c_to : option string;
  c_body : string
}.

Inductive Nivel := INFO | ERROR | CRITICAL.

(** What the process does that can be observed from outside, each external
    call with whether it returned ([true]) or raised ([false]). *)
Inductive Evento :=
| EvLog (nivel : Nivel) (texto : string)
| EvPrint (texto : string)
| EvSleep (milisegundos : Z)
| EvPop3 (paso : string) (ok : bool)
| EvRetr (msg_num : Z) (ok : bool)
| EvGemini (prompt : string) (ok : bool)
| EvSmtp (correo : Correo) (ok : bool)
| EvSendMessage (chat : Chat) (texto : string) (ok : bool)
| EvReplyTo (message : MensajeTg) (texto : string) (ok : bool)
| EvChatAction (chat : Chat) (accion : string) (ok : bool).

(** The network services, as transitions of a world [W]. *)
Class Exterior (W : Type) := {
  (** [poplib.POP3_SSL(server, port, timeout)], [user], [pass_], [uidl],
      [retr] (its lines) and [quit] *)
  POP3_SSL : option string -> Z -> Z -> W -> W * resultado unit;
  pop_user : option string -> W -> W * resultado unit;
  pop_pass_ : option string -> W -> W * resultado unit;
  pop_uidl : W -> W * resultado (list string);
  pop_retr : Z -> W -> W * resultado (list string);
  pop_quit : W -> W * resultado unit;
  (** [model.generate_content(prompt)] and the [text] of its response *)
  generate_content : string -> W -> W * resultado string;
  (** the SMTP session of [enviar_correo_respuesta]: connect to the server
      on the port, [starttls], [login], [sendmail] *)
  smtp_sesion : option string -> Z -> option string -> option string -> Correo -> W -> W * resultado unit;
  (** the Telegram bot *)
  send_message : Chat -> string -> W -> W * resultado unit;
  reply_to : MensajeTg -> string -> W -> W * resultado unit;
  send_chat_action : Chat -> string -> W -> W * resultado unit;
  (** [vertexai.init], [GenerativeModel], [telebot.TeleBot] at start-up *)
  iniciar_servicios : Config -> W -> W * resultado unit
}.

(** The process: the world, the module globals and the locals of
    [ciclo_correos].  The trace has the latest event first. *)
Record Proceso (W : Type) := {
  mundo : W;
  config : Config;
  state : BotState;
  uids_conocidos : gset string;
  primera_vuelta : bool;
  traza : list Evento
}.
Arguments mundo {W} p.
Arguments config {W} p.
Arguments state {W} p.
Arguments uids_conocidos {W} p.
Arguments primera_vuelta {W} p.
Arguments traza {W} p.

(** ** The state and exception monad *)

Section Monada.
Context {W : Type}.

Definition M (A : Type) : Type := Proceso W -> Proceso W * resultado A.

Definition ret {A} (a : A) : M A := fun p => (p, Ok a).

Definition lanzar {A} (e : Excepcion) : M A := fun p => (p, Lanza e).

Definition bind {A B} (m : M A) (f : A -> M B) : M B :=
  fun p =>
    match m p with
    | (p', Ok a) => f a p'
    | (p', Lanza e) => (p', Lanza e)
    end.

(** [try: m  except Exception as e: h e] *)
Definition intentar {A} (m : M A) (h : Excepcion -> M A) : M A :=
  fun p =>
    match m p with
    | (p', Ok a) => (p', Ok a)
    | (p', Lanza e) => h e p'
    end.

(** A pure call that may raise. *)
Definition de_resultado {A} (r : resultado A) : M A := fun p => (p, r).

Definition leer {A} (f : Proceso W -> A) : M A := fun p => (p, Ok (f p)).

(** The process in world [w] after the event [ev]. *)
Definition anotar (w : W) (ev : Evento) (p : Proceso W) : Proceso W :=
  {| mundo := w; config := config p; state := state p;
     uids_conocidos := uids_conocidos p; primera_vuelta := primera_vuelta p;
     traza := ev :: traza p |}.

Definition registrar (ev : Evento) : M unit :=
  fun p => (anotar (mundo p) ev p, Ok tt).

(** An external call, logged with its outcome. *)
Definition externo {A} (op : W -> W * resultado A) (ev : bool -> Evento) : M A :=
  fun p => let '(w, r) := op (mundo p) in (anotar w (ev (es_ok r)) p, r).

Definition con_state (st : BotState) (p : Proceso W) : Proceso W :=
  {| mundo := mundo p; config := config p; state := st;
     uids_conocidos := uids_conocidos p; primera_vuelta := primera_vuelta p;
     traza := traza p |}.

Definition con_uids_conocidos (u : gset string) (p : Proceso W) : Proceso W :=
  {| mundo := mundo p; config := config p; state := state p;
     uids_conocidos := u; primera_vuelta := primera_vuelta p;
     traza := traza p |}.

Definition con_primera_vuelta (b : bool) (p : Proceso W) : Proceso W :=
  {| mundo := mundo p; config := config p; state := state p;
     uids_conocidos := uids_conocidos p; primera_vuelta := b;
     traza := traza p |}.

Definition poner_state (f : BotState -> BotState) : M unit :=
  fun p => (con_state (f (state p)) p, Ok tt).

Definition poner_uids_conocidos (u : gset string) : M unit :=
  fun p => (con_uids_conocidos u p, Ok tt).

Definition poner_primera_vuelta (b : bool) : M unit :=
  fun p => (con_primera_vuelta b p, Ok tt).

(** [for x in l: f x] *)
Fixpoint para_cada {A} (f : A -> M unit) (l : list A) : M unit :=
  match l with
  | [] => ret tt
  | x :: r => bind (f x) (fun _ => para_cada f r)
  end.

Definition logger (nivel : Nivel) (texto : string) : M unit := registrar (EvLog nivel texto).

Definition sleep (milisegundos : Z) : M unit := registrar (EvSleep milisegundos).

End Monada.
Arguments M W A : clear implicits.

Notation "'haz' x <- m ; k" := (bind m (fun x => k))
  (at level 10, x name, m at level 100, k at level 200,
   format "'[v' 'haz'  x  <-  m ; '/' k ']'").

(** Field updates of [BotState]. *)
Definition con_remitente_y_asunto (r a : string) (s : BotState) : BotState :=
  {| ultimo_remitente := Some r; ultimo_asunto := Some a;
     modo_respuesta := modo_respuesta s; modo_ticket := modo_ticket s |}.

Definition con_modo_respuesta (b : bool) (s : BotState) : BotState :=
  {| ultimo_remitente := ultimo_remitente s; ultimo_asunto := ultimo_asunto s;
     modo_respuesta := b; modo_ticket := modo_ticket s |}.

Definition con_modo_ticket (b : bool) (s : BotState) : BotState :=
  {| ultimo_remitente := ultimo_remitente s; ultimo_asunto := ultimo_asunto s;
     modo_respuesta := modo_respuesta s; modo_ticket := b |}.

(** ** The texts of the source *)

Definition nl : string := String "010"%char EmptyString.
Definition crlf : string := String "013"%char (String "010"%char EmptyString).

Definition gemini_no_disponible : string :=
  "⚠️ Error: La IA no está disponible en este momento.".

Definition texto_ticket_creado : string :=
  "✨¡Entendido Jefe! Generando ticket..." +:+ nl +:+ nl +:+
  "✅Ticket Creado" +:+ nl +:+
  "🎫ID: #INC-2026-8492" +:+ nl +:+
  "📌Categoría: Hardware / Periféricos" +:+ nl +:+
  "👤Asignado a: Soporte Nivel 1" +:+ nl +:+
  "📅SLA: 24 hrs" +:+ nl +:+ nl +:+
  "Registrado en sistema. Le notificaré cambios de estatus.".

Definition texto_sugerencia : string :=
  "Sugerencia Proactiva:" +:+ nl +:+
  "Ofrecí levantar ticket en el correo." +:+ nl +:+
  "¿Quiere que simulemos la creación del ticket ahora? (Sí / No)".

Definition texto_enviado (cuerpo_final : string) : string :=
  "✅ ¡Listo Jefe! Enviado." +:+ nl +:+ nl +:+ "Copia:" +:+ nl +:+ "---" +:+ nl +:+
  cuerpo_final +:+ nl +:+ "---".

Definition texto_con_gusto (remitente : option string) : string :=
  "📝Con gusto." +:+ nl +:+ "¿Qué respondemos a " +:+ fmt remitente +:+ "?".

Definition prompt_respuesta (remitente asunto : option string) (dictado : string) : string :=
  "
        ACTÚA COMO: JoulIAna, la asistente de IA de Jared Abarca (Analista TI).
        
        SITUACIÓN:
        Jared (tu jefe) te está dictando una respuesta para un correo que recibió.
        
        DATOS:
        - Destinatario: " +:+
  fmt remitente +:+
  "
        - Asunto Original: " +:+
  fmt asunto +:+
  "
        - LO QUE JARED DICE (Tu instrucción): " +:+
  comilla +:+ dictado +:+ comilla +:+
  "
        
        TU TAREA:
        Redactar el correo de respuesta transmitiendo el mensaje de Jared.
        NO asumas que el mensaje es para ti. Si Jared dice " +:+
  comilla +:+ "funciona bien" +:+ comilla +:+
  ", significa que ÉL opina que funciona bien.
        
        FORMATO OBLIGATORIO:
        1. Saludo: " +:+
  comilla +:+ "Le escribe JoulIAna en nombre de Jared." +:+ comilla +:+
  "
        2. Cuerpo: " +:+
  comilla +:+
  "Jared comenta que [Aquí adapta lo que dijo Jared en tercera persona o transmitiendo su idea exacta]..." +:+
  comilla +:+
  "
        3. Cierre: " +:+
  comilla +:+ "Atentamente, JoulIAna | IA Assistant" +:+ comilla +:+
  ".
        
        IMPORTANTE: No agradezcas feedback a menos que Jared te diga " +:+
  comilla +:+ "Dile gracias" +:+ comilla +:+
  ". Solo transmite su mensaje.
        REGLA DE ORO:
        SOLO dame el CUERPO del correo. NO incluyas " +:+
  comilla +:+ "Asunto:" +:+ comilla +:+ ", " +:+ comilla +:+ "Para:" +:+ comilla +:+
  ", ni cabeceras. Empieza directo con el saludo.
        ".

Definition prompt_chat (dictado : string) : string :=
  "Eres JoulIAna, asistente leal y eficiente de Jared (IT). " +:+
  "Input usuario: " +:+ dictado +:+ ". Responde con personalidad.".

Definition prompt_resumen (remitente asunto cuerpo_mensaje : string) : string :=
  "
                            Eres JoulIAna. Analiza para Jared:
                            De: " +:+
  remitente +:+ " | Asunto: " +:+ asunto +:+ " | Cuerpo: " +:+ tomar_cp 1500 cuerpo_mensaje +:+
  "
                            Dame un resumen EJECUTIVO y CORTO (máx 6 líneas).
                            ".

Definition alerta (remitente asunto resumen_ia : string) : string :=
  "✨Hola Jefe, tienes correo nuevo" +:+ nl +:+
  "📧De: `" +:+ remitente +:+ "`" +:+ nl +:+
  "📝Asunto: " +:+ asunto +:+ nl +:+
  "------------------" +:+ nl +:+
  resumen_ia +:+ nl +:+
  "------------------" +:+ nl +:+
  "¿Le gustaría responder ahora?".

(** The keyword lists of [responder_chat]. *)
Definition afirmativos_ticket : list string := ["si"; "sí"; "claro"; "por favor"; "hazlo"; "simon"].
Definition afirmativos : list string := ["si"; "sí"; "claro"; "responder"; "ok"; "simon"].
Definition negativos : list string := ["no"; "nel"; "nop"; "luego"; "gracias"].
Definition keywords : list string := ["ticket"; "incidencia"; "soporte"; "falla"].

(** ** Sections 4 to 6 of the source *)

Section Programa.
Context {lib : Biblioteca} {W : Type} {ext : Exterior W}.

Local Abbreviation M := (M W).

(** The three calls of the Telegram bot. *)
Definition bot_send_message (chat : Chat) (texto : string) : M unit :=
  externo (send_message chat texto) (EvSendMessage chat texto).

Definition bot_reply_to (message : MensajeTg) (texto : string) : M unit :=
  externo (reply_to message texto) (EvReplyTo message texto).

Definition bot_send_chat_action (chat : Chat) (accion : string) : M unit :=
  externo (send_chat_action chat accion) (EvChatAction chat accion).

(** *** Section 4: language model and outgoing mail *)

(** [preguntar_a_gemini] (source lines 170-177). *)
Definition preguntar_a_gemini (prompt : string) : M string :=
  intentar
    (haz response_text <- externo (generate_content prompt) (EvGemini prompt);
     ret (str_strip response_text))
    (fun e =>
       haz _ <- logger ERROR ("Fallo en API Vertex AI: " +:+ e_texto e);
       ret gemini_no_disponible).

(** [enviar_correo_respuesta] (source lines 179-197). *)
Definition enviar_correo_respuesta (destinatario asunto : option string) (cuerpo_ia : string) : M bool :=
  intentar
    (haz cfg <- leer config;
     let msg := {| c_subject := "Re: " +:+ fmt asunto; c_from := EMAIL_USER cfg;
                   c_to := destinatario; c_body := cuerpo_ia |} in
     haz _ <- externo (smtp_sesion (EMAIL_SERVER cfg) 587 (EMAIL_USER cfg) (EMAIL_PASS cfg) msg)
                       (EvSmtp msg);
     haz _ <- logger INFO ("Correo enviado exitosamente a " +:+ fmt destinatario);
     ret true)
    (fun e =>
       haz _ <- logger ERROR ("Error SMTP al enviar correo: " +:+ e_texto e);
       ret false).

(** *** Section 5: the chat controller *)

(** [responder_chat] (source lines 205-306); each early [return] is the
    end of its branch. *)
Definition responder_chat (message : MensajeTg) : M unit :=
  let usuario_input := str_lower (text message) in
  let chat := ChatId (chat_id message) in
  haz st <- leer state;
  if modo_ticket st then
    (* state 1: demo ticket system *)
    haz _ <- (if alguna_en afirmativos_ticket usuario_input then
                haz _ <- bot_send_chat_action chat "typing";
                haz _ <- sleep 1500;
                bot_reply_to message texto_ticket_creado
              else
                bot_reply_to message "Comprendido. No se generó ticket.");
    poner_state (con_modo_ticket false)
  else if modo_respuesta st then
    (* state 2: drafting the reply *)
    haz _ <- bot_send_message chat "A la orden Jared, redactando su correo...";
    haz st1 <- leer state;
    let prompt := prompt_respuesta (ultimo_remitente st1) (ultimo_asunto st1) (text message) in
    haz cuerpo_final <- preguntar_a_gemini prompt;
    haz st2 <- leer state;
    haz exito <- enviar_correo_respuesta (ultimo_remitente st2) (ultimo_asunto st2) cuerpo_final;
    haz _ <- (if exito : bool then
                haz _ <- bot_reply_to message (texto_enviado cuerpo_final);
                if alguna_en keywords (str_lower cuerpo_final) then
                  haz _ <- sleep 1000;
                  haz _ <- bot_send_message chat texto_sugerencia;
                  poner_state (con_modo_ticket true)
                else ret tt
              else
                bot_reply_to message "😰 Error de conexión SMTP. Revise los logs.");
    poner_state (con_modo_respuesta false)
  else
    (* state 3: general flow *)
    if alguna_en afirmativos usuario_input then
      haz st1 <- leer state;
      if verdadero (ultimo_remitente st1) then
        haz _ <- poner_state (con_modo_respuesta true);
        bot_reply_to message (texto_con_gusto (ultimo_remitente st1))
      else
        bot_reply_to message "🤷‍♀️ No hay correos recientes en memoria."
    else if alguna_en negativos usuario_input then
      bot_reply_to message "👍 Enterado. Quedo a la espera."
    else
      haz respuesta <- preguntar_a_gemini (prompt_chat (text message));
      bot_reply_to message respuesta.

(** *** Section 6: the mailbox watcher *)

(** [obtener_cuerpo] (source lines 129-146): the handler logs and the
    placeholder is returned. *)
Definition obtener_cuerpo (msg : Mensaje) : M string :=
  match cuerpo_de msg with
  | Ok body => ret body
  | Lanza e =>
      haz _ <- logger ERROR ("Error parseando cuerpo del correo: " +:+ e_texto e);
      ret "Sin contenido legible."
  end.

(** [obtener_lista_uids_con_mapa] (source lines 148-163). *)
Definition obtener_lista_uids_con_mapa : M (gset string * gmap string Z) :=
  haz items <- externo pop_uidl (EvPop3 "uidl");
  de_resultado (leer_items items ∅ ∅).

(** The body of [for uid in nuevos] (source lines 341-379); [if msg_num]
    skips an identifier with no sequence number or with number 0. *)
Definition procesar_uid (uid_map : gmap string Z) (uid : string) : M unit :=
  match uid_map !! uid with
  | None => ret tt
  | Some msg_num =>
      if (msg_num =? 0)%Z then ret tt
      else
        haz lines <- externo (pop_retr msg_num) (EvRetr msg_num);
        let msg := message_from_bytes (String.concat crlf lines) in
        let asunto := fst (obtener_asunto_y_remitente msg) in
        let remitente := snd (obtener_asunto_y_remitente msg) in
        haz cuerpo_mensaje <- obtener_cuerpo msg;
        let email_limpio := limpiar_remitente remitente in
        haz _ <- poner_state (con_remitente_y_asunto email_limpio asunto);
        haz resumen_ia <- preguntar_a_gemini (prompt_resumen remitente asunto cuerpo_mensaje);
        haz cfg <- leer config;
        bot_send_message (ChatConfig (TELEGRAM_CHAT_ID cfg)) (alerta remitente asunto resumen_ia)
  end.

(** The session and the listing of a cycle (source lines 325-329). *)
Definition sesion_y_listado : M (gset string * gmap string Z) :=
  haz cfg <- leer config;
  haz _ <- externo (POP3_SSL (EMAIL_SERVER cfg) (EMAIL_PORT cfg) 10) (EvPop3 "POP3_SSL");
  haz _ <- externo (pop_user (EMAIL_USER cfg)) (EvPop3 "user");
  haz _ <- externo (pop_pass_ (EMAIL_PASS cfg)) (EvPop3 "pass_");
  obtener_lista_uids_con_mapa.

(** The branch [if nuevos] of a cycle (source lines 339-381): the log
    line, the loop, the re-synchronisation. *)
Definition con_nuevos (uids_actuales nuevos : gset string) (uid_map : gmap string Z) : M unit :=
  haz _ <- logger INFO ("Detectados " +:+ pretty (size nuevos) +:+ " correos nuevos.");
  haz _ <- para_cada (procesar_uid uid_map) (set_iter nuevos);
  poner_uids_conocidos uids_actuales.

(** What the cycle does with the listing, up to [pop_conn.quit()]
    (source lines 331-383). *)
Definition tras_listado (uids_actuales : gset string) (uid_map : gmap string Z) : M unit :=
  haz primera <- leer primera_vuelta;
  haz _ <- (if primera : bool then
              haz _ <- poner_uids_conocidos uids_actuales;
              haz _ <- poner_primera_vuelta false;
              logger INFO ("Sincronización inicial completada. " +:+
                           pretty (size uids_actuales) +:+ " correos previos.")
            else
              haz conocidos <- leer uids_conocidos;
              let nuevos := uids_actuales ∖ conocidos in
              if bool_decide (nuevos = ∅) then ret tt
              else con_nuevos uids_actuales nuevos uid_map);
  externo pop_quit (EvPop3 "quit").

(** The [try] block of one turn of [while True] (source lines 323-383). *)
Definition cuerpo_ciclo : M unit :=
  haz listado <- sesion_y_listado;
  tras_listado (fst listado) (snd listado).

(** One turn of [while True] (source lines 322-387): the [try] block, its
    handler, the wait. *)
Definition ciclo : M unit :=
  haz _ <- intentar cuerpo_ciclo
             (fun e => logger ERROR ("Error en ciclo de vigilancia: " +:+ e_texto e));
  sleep 30000.

(** [ciclo_correos], cut after [n] turns of its loop. *)
Fixpoint ciclos (n : nat) : M unit :=
  match n with
  | O => ret tt
  | S k => haz _ <- ciclo; ciclos k
  end.

Definition ciclo_correos (n : nat) : M unit :=
  haz _ <- logger INFO "Iniciando servicio de vigilancia POP3...";
  haz _ <- poner_uids_conocidos ∅;
  haz _ <- poner_primera_vuelta true;
  ciclos n.

End Programa.

(** ** The controller's mode and the chat transport

    The source keeps the mode of the state machine in two flags; the flag
    pairs stand for the three modes, and both flags set stand for none. *)

Inductive Modo := Idle | AwaitingReplyDraft | AwaitingTicketConfirmation.

Definition modo (st : BotState) : option Modo :=
  match modo_ticket st, modo_respuesta st with
  | false, false => Some Idle
  | false, true => Some AwaitingReplyDraft
  | true, false => Some AwaitingTicketConfirmation
  | true, true => None
  end.

(** The Telegram calls return: the chat transport delivers. *)
Definition telegram_fiable {W : Type} {ext : Exterior W} : Prop :=
  (forall chat texto w, snd (send_message chat texto w) = Ok tt) /\
  (forall message texto w, snd (reply_to message texto w) = Ok tt) /\
  (forall chat accion w, snd (send_chat_action chat accion w) = Ok tt).

(** The state after the chat turns [ms], whatever the outcome of each:
    an exception that leaves the handler ends that turn only. *)
Definition charla {lib : Biblioteca} {W : Type} {ext : Exterior W}
    (ms : list MensajeTg) (p : Proceso W) : Proceso W :=
  fold_left (fun q message => fst (responder_chat message q)) ms p.

(** The pushes of a trace: the texts [bot.send_message] delivered to
    [TELEGRAM_CHAT_ID], and the sequence numbers [retr] was called with. *)
Definition notificacion (ev : Evento) : option string :=
  match ev with
  | EvSendMessage (ChatConfig _) texto true => Some texto
  | _ => None
  end.

Definition notificaciones (t : list Evento) : list string := omap notificacion t.

Definition descarga (ev : Evento) : option Z :=
  match ev with
  | EvRetr msg_num _ => Some msg_num
  | _ => None
  end.

Definition descargas (t : list Evento) : list Z := omap descarga t.

(** The calls of the Telegram bot, delivered or not. *)
Definition es_telegram (ev : Evento) : bool :=
  match ev with
  | EvSendMessage _ _ _ | EvReplyTo _ _ _ | EvChatAction _ _ _ => true
  | _ => false
  end.

(** ** Section 1 of the source: configuration and its validation *)

Section Arranque.
Context {lib : Biblioteca} {W : Type} {ext : Exterior W}.

(** The module-level reads of [os.getenv] (source lines 41-52); [int] may
    raise on [EMAIL_PORT]. *)
Definition leer_config (env : gmap string string) : resultado Config :=
  match (match env !! "EMAIL_PORT" with
         | Some s => py_int s
         | None => Ok 995%Z
         end) with
  | Lanza e => Lanza e
  | Ok port =>
      Ok {| TELEGRAM_TOKEN := env !! "TELEGRAM_TOKEN";
            TELEGRAM_CHAT_ID := env !! "TELEGRAM_CHAT_ID";
            EMAIL_SERVER := env !! "EMAIL_SERVER";
            EMAIL_PORT := port;
            EMAIL_USER := env !! "EMAIL_USER";
            EMAIL_PASS := env !! "EMAIL_PASS";
            PROJECT_ID := env !! "GOOGLE_CLOUD_PROJECT";
            LOCATION := default "us-central1" (env !! "GOOGLE_CLOUD_LOCATION") |}
  end.

(** [all([TELEGRAM_TOKEN, EMAIL_USER, EMAIL_PASS, PROJECT_ID])]
    (source line 55). *)
Definition entorno_valido (cfg : Config) : bool :=
  forallb verdadero [TELEGRAM_TOKEN cfg; EMAIL_USER cfg; EMAIL_PASS cfg; PROJECT_ID cfg].

(** How the module's top level ends: [sys.exit], an uncaught exception, or
    the state in which the entry point starts the watcher thread and the
    Telegram polling. *)
Inductive Arranque :=
| Sale (codigo : Z) (salida : list Evento)
| Traceback (e : Excepcion)
| EnMarcha (p : Proceso W).

(** The module's top level (source lines 41-97). *)
Definition arranque (env : gmap string string) (w : W) : Arranque :=
  match leer_config env with
  | Lanza e => Traceback e
  | Ok cfg =>
      if negb (entorno_valido cfg) then
        Sale 1 [EvPrint "CRITICAL: Faltan variables de entorno. Revise el archivo .env"]
      else
        match iniciar_servicios cfg w with
        | (_, Lanza e) =>
            Sale 1 [EvLog CRITICAL ("Error inicializando servicios externos: " +:+ e_texto e)]
        | (w', Ok _) =>
            EnMarcha {| mundo := w'; config := cfg; state := estado_inicial;
                        uids_conocidos := ∅; primera_vuelta := true; traza := [] |}
        end
  end.

(** Whether the loops get started. *)
Definition en_marcha (a : Arranque) : bool :=
  match a with EnMarcha _ => true | _ => false end.

End Arranque.
Arguments Arranque W : clear implicits.

(** ** Vocabulary of the properties *)

Section Vocabulario.
Context {W : Type}.

(** [m], run from [p], ends in a process and a result that satisfy [Q]. *)
Definition cumple {A} (m : M W A) (p : Proceso W) (Q : Proceso W -> resultado A -> Prop) : Prop :=
  Q (fst (m p)) (snd (m p)).

(** What a step of the watcher leaves alone: its own locals, the
    configuration and the two mode flags. *)
Definition mismo_marco (p p' : Proceso W) : Prop :=
  uids_conocidos p' = uids_conocidos p /\
  primera_vuelta p' = primera_vuelta p /\
  config p' = config p /\
  modo_respuesta (state p') = modo_respuesta (state p) /\
  modo_ticket (state p') = modo_ticket (state p).

(** The process at the head of [for uid in nuevos], after the log line. *)
Definition inicio_bucle (act : gset string) (p1 : Proceso W) : Proceso W :=
  anotar (mundo p1)
    (EvLog INFO ("Detectados " +:+ pretty (size (act ∖ uids_conocidos p1)) +:+ " correos nuevos."))
    p1.

End Vocabulario.

(** The SMTP sessions of a trace, and its POP3 traffic. *)
Definition es_smtp (ev : Evento) : bool :=
  match ev with
  | EvSmtp _ _ => true
  | _ => false
  end.

Definition es_pop3 (ev : Evento) : bool :=
  match ev with
  | EvPop3 _ _ | EvRetr _ _ => true
  | _ => false
  end.

(** ** A reference library and scripted worlds, to run the model

    [biblioteca_ref] agrees with CPython on what the examples below feed
    it: ASCII and Latin-1 text, decimal literals, the codecs [utf-8],
    [latin-1] and [ascii], and single-part messages whose headers need no
    decoding.  The theorems hold for every [Biblioteca]. *)

Module Ref.

Definition entre (a b n : N) : bool := (a <=? n)%N && (n <=? b)%N.

(** Well-formed UTF-8 (no overlong forms, no surrogates, at most U+10FFFF). *)
Fixpoint utf8_valido (s : string) : bool :=
  match s with
  | EmptyString => true
  | String c0 r0 =>
      let n0 := N_of_ascii c0 in
      if (n0 <? 128)%N then utf8_valido r0
      else
        match r0 with
        | EmptyString => false
        | String c1 r1 =>
            let n1 := N_of_ascii c1 in
            if entre 194 223 n0 then entre 128 191 n1 && utf8_valido r1
            else
              match r1 with
              | EmptyString => false
              | String c2 r2 =>
                  let n2 := N_of_ascii c2 in
                  if entre 224 239 n0 then
                    (if (n0 =? 224)%N then entre 160 191 n1
                     else if (n0 =? 237)%N then entre 128 159 n1
                     else entre 128 191 n1)
                    && entre 128 191 n2 && utf8_valido r2
                  else
                    match r2 with
                    | EmptyString => false
                    | String c3 r3 =>
                        entre 240 244 n0
                        && (if (n0 =? 240)%N then entre 144 191 n1
                            else if (n0 =? 244)%N then entre 128 143 n1
                            else entre 128 191 n1)
                        && entre 128 191 n2 && entre 128 191 (N_of_ascii c3)
                        && utf8_valido r3
                    end
              end
        end
  end.

Definition solo_ascii (s : string) : bool :=
  forallb (fun c => (N_of_ascii c <? 128)%N) (list_ascii_of_string s).

(** Lower case of ASCII and Latin-1 letters. *)
Fixpoint lower (s : string) : string :=
  match s with
  | EmptyString => EmptyString
  | String c r =>
      let n := N_of_ascii c in
      if entre 65 90 n then String (ascii_of_N (n + 32)) (lower r)
      else if (n =? 195)%N then
        match r with
        | EmptyString => String c EmptyString
        | String d r' =>
            let m := N_of_ascii d in
            if entre 128 158 m && negb (m =? 151)%N
            then String c (String (ascii_of_N (m + 32)) (lower r'))
            else String c (String d (lower r'))
        end
      else String c (lower r)
  end.

Definition es_blanco (c : ascii) : bool :=
  let n := N_of_ascii c in entre 9 13 n || (n =? 32)%N.

Fixpoint lstrip (s : string) : string :=
  match s with
  | EmptyString => EmptyString
  | String c r => if es_blanco c then lstrip r else s
  end.

Fixpoint rstrip (s : string) : string :=
  match s with
  | EmptyString => EmptyString
  | String c r =>
      match rstrip r with
      | EmptyString => if es_blanco c then EmptyString else String c EmptyString
      | r' => String c r'
      end
  end.

Definition strip (s : string) : string := rstrip (lstrip s).

Fixpoint digitos (s : string) (acc : Z) : option Z :=
  match s with
  | EmptyString => Some acc
  | String c r =>
      let n := N_of_ascii c in
      if entre 48 57 n then digitos r (10 * acc + Z.of_N (n - 48)) else None
  end.

Definition int (s : string) : resultado Z :=
  let error := Lanza {| e_clase := ValueError;
                        e_texto := "invalid literal for int() with base 10: '" +:+ s +:+ "'" |} in
  let natural (d : string) :=
    match d with
    | EmptyString => None
    | _ => digitos d 0
    end in
  match strip s with
  | String "-" d => match natural d with Some z => Ok (- z)%Z | None => error end
  | String "+" d => match natural d with Some z => Ok z | None => error end
  | d => match natural d with Some z => Ok z | None => error end
  end.

Definition decode (encoding b : string) : resultado string :=
  let no_decodifica :=
    Lanza {| e_clase := UnicodeDecodeError;
             e_texto := "'" +:+ encoding +:+ "' codec can't decode bytes" |} in
  let nombre := lower encoding in
  if (nombre =? "utf-8") || (nombre =? "utf8") then
    if utf8_valido b then Ok b else no_decodifica
  else if (nombre =? "latin-1") || (nombre =? "iso-8859-1") then Ok (latin1_decode b)
  else if (nombre =? "ascii") || (nombre =? "us-ascii") then
    if solo_ascii b then Ok b else no_decodifica
  else Lanza {| e_clase := LookupError; e_texto := "unknown encoding: " +:+ encoding |}.

(** The value of the first header line that starts with [nombre]. *)
Definition cabecera (nombre : string) (lineas : list string) : option string :=
  match find (String.prefix nombre) lineas with
  | Some l => Some (String.substring (String.length nombre) (String.length l) l)
  | None => None
  end.

Fixpoint cabeceras_y_cuerpo (lineas : list string) : list string * list string :=
  match lineas with
  | [] => ([], [])
  | l :: r =>
      if (l =? "") then ([], r)
      else (l :: fst (cabeceras_y_cuerpo r), snd (cabeceras_y_cuerpo r))
  end.

(** A single-part text message: header lines, an empty line, the body. *)
Definition message (b : string) : Mensaje :=
  let lineas := str_split "010"%char (str_quitar "013"%char b) in
  let cabs := fst (cabeceras_y_cuerpo lineas) in
  let parte := {| get_content_type := "text/plain";
                  get_payload := Ok (TBytes (String.concat nl (snd (cabeceras_y_cuerpo lineas))));
                  get_content_charset := None |} in
  {| m_subject := cabecera "Subject: " cabs; m_from := cabecera "From: " cabs;
     is_multipart := false; m_raiz := parte; m_subpartes := [] |}.

Lemma elements_perm (s : gset string) : elements s ≡ₚ elements s.
Proof. reflexivity. Qed.

#[export] Instance biblioteca_ref : Biblioteca := {|
  str_lower := lower;
  str_strip := strip;
  py_int := int;
  bytes_decode := decode;
  set_iter := elements;
  set_iter_perm := elements_perm;
  message_from_bytes := message;
  decode_header := fun s => Ok [(TStr s, None)]
|}.

(** A script: what every service answers.  [exterior_de] makes a script
    the outside of a world that has no state of its own. *)
Record Guion := {
  g_sesion : resultado unit;                 (* POP3_SSL, user, pass_, quit *)
  g_uidl : resultado (list string);
  g_retr : Z -> resultado (list string);
  g_gemini : string -> resultado string;
  g_smtp : Correo -> resultado unit;
  g_telegram : string -> resultado unit;     (* by the text sent *)
  g_servicios : resultado unit
}.

Definition exterior_de (g : Guion) : Exterior unit := {|
  POP3_SSL := fun _ _ _ w => (w, g_sesion g);
  pop_user := fun _ w => (w, g_sesion g);
  pop_pass_ := fun _ w => (w, g_sesion g);
  pop_uidl := fun w => (w, g_uidl g);
  pop_retr := fun n w => (w, g_retr g n);
  pop_quit := fun w => (w, g_sesion g);
  generate_content := fun prompt w => (w, g_gemini g prompt);
  smtp_sesion := fun _ _ _ _ msg w => (w, g_smtp g msg);
  send_message := fun _ texto w => (w, g_telegram g texto);
  reply_to := fun _ texto w => (w, g_telegram g texto);
  send_chat_action := fun _ _ w => (w, Ok tt);
  iniciar_servicios := fun _ w => (w, g_servicios g)
|}.

Definition falla (texto : string) : Excepcion :=
  {| e_clase := OtraExcepcion; e_texto := texto |}.

(** A mailbox with three messages where every service works. *)
Definition correo_de (n : Z) : list string :=
  ["From: Ana <ana@x.com>"; "Subject: Aviso " +:+ pretty n; ""; "La impresora no enciende."].

Definition guion_ok : Guion := {|
  g_sesion := Ok tt;
  g_uidl := Ok ["1 A"; "2 B"; "3 C"];
  g_retr := fun n => Ok (correo_de n);
  g_gemini := fun _ => Ok "Resumen.";
  g_smtp := fun _ => Ok tt;
  g_telegram := fun _ => Ok tt;
  g_servicios := Ok tt
|}.

Definition config_ref : Config := {|
  TELEGRAM_TOKEN := Some "token"; TELEGRAM_CHAT_ID := Some "42";
  EMAIL_SERVER := Some "pop.x.com"; EMAIL_PORT := 995;
  EMAIL_USER := Some "jared@x.com"; EMAIL_PASS := Some "secreto";
  PROJECT_ID := Some "proyecto"; LOCATION := "us-central1"
|}.

(** A process after its initial sync, knowing [conocidos]. *)
Definition proceso (conocidos : gset string) (st : BotState) : Proceso unit :=
  {| mundo := tt; config := config_ref; state := st;
     uids_conocidos := conocidos; primera_vuelta := false; traza := [] |}.

(** Scripts and states of the concrete runs. *)


(** A server from which message B has been deleted. *)
Definition guion_borrado : Guion := {|
  g_sesion := Ok tt;
  g_uidl := Ok ["1 A"];
  g_retr := fun n => Ok (correo_de n);
  g_gemini := fun _ => Ok "Resumen.";
  g_smtp := fun _ => Ok tt;
  g_telegram := fun _ => Ok tt;
  g_servicios := Ok tt
|}.

(** A server that cannot be reached. *)
Definition guion_sin_conexion : Guion := {|
  g_sesion := Lanza (falla "timed out");
  g_uidl := Ok ["1 A"; "2 B"; "3 C"];
  g_retr := fun n => Ok (correo_de n);
  g_gemini := fun _ => Ok "Resumen.";
  g_smtp := fun _ => Ok tt;
  g_telegram := fun _ => Ok tt;
  g_servicios := Ok tt
|}.

Definition esperando_ticket : BotState :=
  {| ultimo_remitente := Some "ana@x.com"; ultimo_asunto := Some "Impresora";
     modo_respuesta := false; modo_ticket := true |}.

Definition esperando_dictado : BotState :=
  {| ultimo_remitente := Some "ana@x.com"; ultimo_asunto := Some "Impresora";
     modo_respuesta := true; modo_ticket := false |}.

Definition con_pendiente : BotState :=
  {| ultimo_remitente := Some "ana@x.com"; ultimo_asunto := Some "Impresora";
     modo_respuesta := false; modo_ticket := false |}.

(** A language model whose draft offers a ticket, and one that is down. *)
Definition guion_ofrece_ticket : Guion := {|
  g_sesion := Ok tt;
  g_uidl := Ok [];
  g_retr := fun n => Ok (correo_de n);
  g_gemini := fun _ => Ok "Le escribe JoulIAna. Podemos levantar un ticket de soporte.";
  g_smtp := fun _ => Ok tt;
  g_telegram := fun _ => Ok tt;
  g_servicios := Ok tt
|}.

Definition guion_sin_modelo : Guion := {|
  g_sesion := Ok tt;
  g_uidl := Ok [];
  g_retr := fun n => Ok (correo_de n);
  g_gemini := fun _ => Lanza (falla "503 Service Unavailable");
  g_smtp := fun _ => Ok tt;
  g_telegram := fun _ => Ok tt;
  g_servicios := Ok tt
|}.

Definition entorno_sin_puerto : gmap string string :=
  list_to_map [("TELEGRAM_TOKEN", "token"); ("TELEGRAM_CHAT_ID", "42");
               ("EMAIL_SERVER", "pop.x.com"); ("EMAIL_USER", "jared@x.com");
               ("EMAIL_PASS", "secreto"); ("GOOGLE_CLOUD_PROJECT", "proyecto")].

Definition entorno_sin_token : gmap string string :=
  list_to_map [("TELEGRAM_CHAT_ID", "42"); ("EMAIL_SERVER", "pop.x.com");
               ("EMAIL_PORT", "995"); ("EMAIL_USER", "jared@x.com");
               ("EMAIL_PASS", "secreto"); ("GOOGLE_CLOUD_PROJECT", "proyecto");
               ("GOOGLE_CLOUD_LOCATION", "us-central1")].


(** A process that has not synchronised yet. *)
Definition proceso_nuevo : Proceso unit :=
  {| mundo := tt; config := config_ref; state := estado_inicial;
     uids_conocidos := ∅; primera_vuelta := true; traza := [] |}.

(** A server that lists a new message under sequence number 0. *)
Definition guion_numero_cero : Guion := {|
  g_sesion := Ok tt;
  g_uidl := Ok ["1 A"; "0 C"];
  g_retr := fun n => Ok (correo_de n);
  g_gemini := fun _ => Ok "Resumen.";
  g_smtp := fun _ => Ok tt;
  g_telegram := fun _ => Ok tt;
  g_servicios := Ok tt
|}.

(** A multipart message: an HTML part, then two plain-text parts. *)
Definition mensaje_multiparte : Mensaje := {|
  m_subject := Some "Hola"; m_from := Some "Ana <ana@x.com>";
  is_multipart := true;
  m_raiz := {| get_content_type := "multipart/alternative"; get_payload := Ok TNone;
               get_content_charset := None |};
  m_subpartes :=
    [{| get_content_type := "text/html"; get_payload := Ok (TBytes "<p>uno</p>");
        get_content_charset := Some "utf-8" |};
     {| get_content_type := "text/plain"; get_payload := Ok (TBytes "uno");
        get_content_charset := Some "utf-8" |};
     {| get_content_type := "text/plain"; get_payload := Ok (TBytes "dos");
        get_content_charset := Some "utf-8" |}]
|}.

(** An environment with the four validated values and nothing else. *)
Definition entorno_minimo : gmap string string :=
  list_to_map [("TELEGRAM_TOKEN", "token"); ("EMAIL_USER", "jared@x.com");
               ("EMAIL_PASS", "secreto"); ("GOOGLE_CLOUD_PROJECT", "proyecto")].

End Ref.

(** * Properties *)

(** * Reasoning about the monad *)

Section Reglas.
Context {W : Type}.
Local Abbreviation M := (M W).

Lemma cumple_ret {A} (a : A) (p : Proceso W) Q : Q p (Ok a) -> cumple (ret a) p Q.
Proof. exact (fun h => h). Qed.

Lemma cumple_bind {A B} (m : M A) (f : A -> M B) (p : Proceso W) Q :
  cumple m p (fun p' r => match r with
                          | Ok a => cumple (f a) p' Q
                          | Lanza e => Q p' (Lanza e)
                          end) ->
  cumple (bind m f) p Q.
Proof. unfold cumple, bind. destruct (m p) as [p' [a|e]]; exact (fun h => h). Qed.

Lemma cumple_intentar {A} (m : M A) (h : Excepcion -> M A) (p : Proceso W) Q :
  cumple m p (fun p' r => match r with
                          | Ok a => Q p' (Ok a)
                          | Lanza e => cumple (h e) p' Q
                          end) ->
  cumple (intentar m h) p Q.
Proof. unfold cumple, intentar. destruct (m p) as [p' [a|e]]; exact (fun k => k). Qed.

Lemma cumple_externo {A} (op : W -> W * resultado A) ev (p : Proceso W) Q :
  (forall w r, op (mundo p) = (w, r) -> Q (anotar w (ev (es_ok r)) p) r) ->
  cumple (externo op ev) p Q.
Proof. unfold cumple, externo. intros h. destruct (op (mundo p)) as [w r]. now apply h. Qed.

Lemma cumple_leer {A} (f : Proceso W -> A) (p : Proceso W) Q : Q p (Ok (f p)) -> cumple (leer f) p Q.
Proof. exact (fun h => h). Qed.

Lemma cumple_de_resultado {A} (r : resultado A) (p : Proceso W) Q : Q p r -> cumple (de_resultado r) p Q.
Proof. exact (fun h => h). Qed.

Lemma cumple_registrar ev (p : Proceso W) Q : Q (anotar (mundo p) ev p) (Ok tt) -> cumple (registrar ev) p Q.
Proof. exact (fun h => h). Qed.

Lemma cumple_poner_state f (p : Proceso W) Q :
  Q (con_state (f (state p)) p) (Ok tt) -> cumple (poner_state f) p Q.
Proof. exact (fun h => h). Qed.

Lemma cumple_poner_uids_conocidos u (p : Proceso W) Q :
  Q (con_uids_conocidos u p) (Ok tt) -> cumple (poner_uids_conocidos u) p Q.
Proof. exact (fun h => h). Qed.

Lemma cumple_poner_primera_vuelta b (p : Proceso W) Q :
  Q (con_primera_vuelta b p) (Ok tt) -> cumple (poner_primera_vuelta b) p Q.
Proof. exact (fun h => h). Qed.

Lemma cumple_consecuencia {A} (m : M A) (p : Proceso W) (Q Q' : Proceso W -> resultado A -> Prop) :
  cumple m p Q -> (forall p' r, Q p' r -> Q' p' r) -> cumple m p Q'.
Proof. unfold cumple. auto. Qed.

End Reglas.

(** One step of a monadic program. *)
Ltac paso :=
  lazymatch goal with
  | |- cumple (bind _ _) _ _ => apply cumple_bind
  | |- cumple (ret _) _ _ => apply cumple_ret
  | |- cumple (intentar _ _) _ _ => apply cumple_intentar
  | |- cumple (externo _ _) _ _ =>
      let w := fresh "w" in let r := fresh "r" in let E := fresh "E" in
      apply cumple_externo; intros w r E; destruct r; cbn [es_ok]
  | |- cumple (leer _) _ _ => apply cumple_leer
  | |- cumple (de_resultado _) _ _ => apply cumple_de_resultado
  | |- cumple (registrar _) _ _ => apply cumple_registrar
  | |- cumple (logger _ _) _ _ => apply cumple_registrar
  | |- cumple (sleep _) _ _ => apply cumple_registrar
  | |- cumple (poner_state _) _ _ => apply cumple_poner_state
  | |- cumple (poner_uids_conocidos _) _ _ => apply cumple_poner_uids_conocidos
  | |- cumple (poner_primera_vuelta _) _ _ => apply cumple_poner_primera_vuelta
  | |- cumple (bot_send_message _ _) _ _ => unfold bot_send_message
  | |- cumple (bot_reply_to _ _) _ _ => unfold bot_reply_to
  | |- cumple (bot_send_chat_action _ _) _ _ => unfold bot_send_chat_action
  | |- cumple (preguntar_a_gemini _) _ _ => unfold preguntar_a_gemini
  | |- cumple (enviar_correo_respuesta _ _ _) _ _ => unfold enviar_correo_respuesta
  | |- cumple (if ?b then _ else _) _ _ =>
      first [ match goal with H : b = _ |- _ => rewrite H end | destruct b eqn:? ]
  | |- cumple (match ?x with _ => _ end) _ _ => destruct x eqn:?
  end.

Ltac campos :=
  cbn [mundo config state uids_conocidos primera_vuelta traza
       anotar con_state con_uids_conocidos con_primera_vuelta
       ultimo_remitente ultimo_asunto modo_respuesta modo_ticket
       con_remitente_y_asunto con_modo_respuesta con_modo_ticket] in *.

Ltac pasos := repeat (paso; cbv beta; campos).

(** The pushes and fetches of a trace, event by event. *)
Lemma notificaciones_cons ev t :
  notificaciones (ev :: t) =
  match notificacion ev with
  | Some texto => texto :: notificaciones t
  | None => notificaciones t
  end.
Proof. reflexivity. Qed.

Lemma descargas_cons ev t :
  descargas (ev :: t) =
  match descarga ev with
  | Some n => n :: descargas t
  | None => descargas t
  end.
Proof. reflexivity. Qed.

Ltac trazas :=
  rewrite ?notificaciones_cons, ?descargas_cons;
  cbn [notificacion descarga List.filter es_telegram].

(** Under a reliable transport a failed Telegram call is absurd. *)
Ltac entrega Hf :=
  try (exfalso;
       let Ks := fresh in let Kr := fresh in let Ka := fresh in
       destruct Hf as (Ks & Kr & Ka);
       match goal with
       | E : send_message ?c ?t ?w = (_, Lanza _) |- _ =>
           generalize (Ks c t w); rewrite E; discriminate
       | E : reply_to ?m ?t ?w = (_, Lanza _) |- _ =>
           generalize (Kr m t w); rewrite E; discriminate
       | E : send_chat_action ?c ?a ?w = (_, Lanza _) |- _ =>
           generalize (Ka c a w); rewrite E; discriminate
       end).

(** ** The chat controller *)

Section Controlador.
Context {lib : Biblioteca} {W : Type} {ext : Exterior W}.

Lemma modo_ticket_inv st :
  modo st = Some AwaitingTicketConfirmation -> modo_ticket st = true /\ modo_respuesta st = false.
Proof. unfold modo. destruct (modo_ticket st), (modo_respuesta st); now intros. Qed.

Lemma modo_respuesta_inv st :
  modo st = Some AwaitingReplyDraft -> modo_ticket st = false /\ modo_respuesta st = true.
Proof. unfold modo. destruct (modo_ticket st), (modo_respuesta st); now intros. Qed.

Lemma modo_idle_inv st :
  modo st = Some Idle -> modo_ticket st = false /\ modo_respuesta st = false.
Proof. unfold modo. destruct (modo_ticket st), (modo_respuesta st); now intros. Qed.

(** No turn writes the pending sender or subject, whatever its outcome. *)
Lemma responder_chat_frame message (p : Proceso W) :
  cumple (responder_chat message) p
    (fun p' _ => ultimo_remitente (state p') = ultimo_remitente (state p) /\
                 ultimo_asunto (state p') = ultimo_asunto (state p)).
Proof.
  unfold responder_chat. cbv zeta. pasos. all: auto.
Qed.

Lemma is_Some_modo st :
  is_Some (modo st) <-> modo_ticket st && modo_respuesta st = false.
Proof.
  unfold modo. destruct (modo_ticket st), (modo_respuesta st); cbn; split; intros Hs;
    try reflexivity; try discriminate; try (eexists; reflexivity).
  destruct Hs; discriminate.
Qed.

(** A turn keeps at most one awaiting flag set, whatever its outcome. *)
Lemma responder_chat_a_lo_sumo_uno message (p : Proceso W) :
  modo_ticket (state p) && modo_respuesta (state p) = false ->
  cumple (responder_chat message) p
    (fun p' _ => modo_ticket (state p') && modo_respuesta (state p') = false).
Proof.
  intros Hm. unfold responder_chat. cbv zeta. pasos.
  all: destruct (modo_ticket (state p)), (modo_respuesta (state p)).
  all: cbn [andb] in *; congruence.
Qed.

(** A ticket-confirmation turn that the transport delivers ends in Idle. *)
Lemma turno_ticket message (p : Proceso W) :
  telegram_fiable ->
  modo (state p) = Some AwaitingTicketConfirmation ->
  cumple (responder_chat message) p
    (fun p' r => r = Ok tt /\ modo (state p') = Some Idle).
Proof.
  intros Hf Hm. destruct (modo_ticket_inv _ Hm) as [Ht Hr].
  unfold responder_chat. cbv zeta. pasos.
  all: entrega Hf.
  all: unfold modo; campos; rewrite Hr; split; [|reflexivity].
  all: match goal with u : unit |- _ => now destruct u | _ => reflexivity end.
Qed.

(** A reply-drafting turn that the transport delivers clears the drafting
    flag; it arms the ticket flag only after a delivered email whose body
    holds a support keyword. *)
Lemma turno_respuesta message (p : Proceso W) :
  telegram_fiable ->
  modo (state p) = Some AwaitingReplyDraft ->
  cumple (responder_chat message) p
    (fun p' r =>
       r = Ok tt /\
       (modo (state p') = Some Idle \/
        (modo (state p') = Some AwaitingTicketConfirmation /\
         exists correo, In (EvSmtp correo true) (traza p') /\
                        alguna_en keywords (str_lower (c_body correo)) = true))).
Proof.
  intros Hf Hm. destruct (modo_respuesta_inv _ Hm) as [Ht Hr].
  unfold responder_chat. cbv zeta. pasos.
  all: entrega Hf.
  all: unfold modo; campos; rewrite ?Ht.
  all: (split; [repeat match goal with u : unit |- _ => destruct u end; reflexivity|]).
  all: try (left; reflexivity).
  all: right; split; [reflexivity|].
  all: eexists; split; [cbn [In]; eauto 10 | cbn [c_body]; eassumption].
Qed.

End Controlador.


(** ** The text decoder *)

Section Decodificador.
Context {lib : Biblioteca}.

(** A [str] or [None] argument is returned through [str()]. *)
Lemma decodificar_texto_no_bytes encoding :
  decodificar_texto TNone encoding = Ok "None" /\
  forall s, decodificar_texto (TStr s) encoding = Ok s.
Proof. split; reflexivity. Qed.

(** The declared charset wins when it decodes. *)
Lemma decodificar_texto_declarado b encoding s :
  bytes_decode (encoding_o_utf8 encoding) b = Ok s ->
  decodificar_texto (TBytes b) encoding = Ok s.
Proof. intros Hd. unfold decodificar_texto. now rewrite Hd. Qed.

(** A [UnicodeDecodeError] is answered by the Latin-1 fallback. *)
Lemma decodificar_texto_fallback b encoding e :
  bytes_decode (encoding_o_utf8 encoding) b = Lanza e ->
  e_clase e = UnicodeDecodeError ->
  decodificar_texto (TBytes b) encoding = Ok (latin1_decode b).
Proof.
  intros Hd Hc. unfold decodificar_texto, es_UnicodeDecodeError.
  now rewrite Hd, Hc.
Qed.

(** Any other exception of the codec leaves the decoder. *)
Lemma decodificar_texto_propaga b encoding e :
  bytes_decode (encoding_o_utf8 encoding) b = Lanza e ->
  e_clase e <> UnicodeDecodeError ->
  decodificar_texto (TBytes b) encoding = Lanza e.
Proof.
  intros Hd Hc. unfold decodificar_texto, es_UnicodeDecodeError.
  rewrite Hd. destruct (e_clase e); congruence.
Qed.

End Decodificador.


(** ** The mailbox watcher *)

Section Vigilante.
Context {lib : Biblioteca} {W : Type} {ext : Exterior W}.

Lemma mismo_marco_refl (p : Proceso W) : mismo_marco p p.
Proof. now repeat split. Qed.

Lemma mismo_marco_trans (p q r : Proceso W) :
  mismo_marco p q -> mismo_marco q r -> mismo_marco p r.
Proof. unfold mismo_marco. intuition congruence. Qed.



(** Steps 1 and 2 touch nothing but the world and the trace, and push and
    fetch nothing. *)
Lemma sesion_y_listado_marco (p : Proceso W) :
  cumple sesion_y_listado p
    (fun p' _ => state p' = state p /\ mismo_marco p p' /\
                 notificaciones (traza p') = notificaciones (traza p) /\
                 descargas (traza p') = descargas (traza p) /\
                 List.filter es_telegram (traza p') = List.filter es_telegram (traza p)).
Proof.
  unfold sesion_y_listado, obtener_lista_uids_con_mapa. pasos.
  all: unfold mismo_marco; campos; trazas; auto 10.
Qed.

(** What is known of the process once steps 1 and 2 have run. *)
Lemma tras_sesion_y_listado (p p1 : Proceso W) r :
  sesion_y_listado p = (p1, r) ->
  state p1 = state p /\ uids_conocidos p1 = uids_conocidos p /\
  primera_vuelta p1 = primera_vuelta p /\ config p1 = config p /\
  notificaciones (traza p1) = notificaciones (traza p) /\
  descargas (traza p1) = descargas (traza p) /\
  List.filter es_telegram (traza p1) = List.filter es_telegram (traza p).
Proof.
  intros Hs. generalize (sesion_y_listado_marco p). unfold cumple, mismo_marco.
  rewrite Hs. cbn [fst snd]. intuition.
Qed.

(** A cycle whose session or listing raises: the handler logs, the loop waits. *)
Lemma ciclo_sin_listado (p p1 : Proceso W) e :
  sesion_y_listado p = (p1, Lanza e) ->
  ciclo p = (anotar (mundo p1) (EvSleep 30000)
               (anotar (mundo p1) (EvLog ERROR ("Error en ciclo de vigilancia: " +:+ e_texto e)) p1),
             Ok tt).
Proof.
  intros Hs. unfold ciclo, intentar, cuerpo_ciclo, bind. rewrite Hs. reflexivity.
Qed.

(** One new identifier: at most one push, and none when it raises. *)
Lemma procesar_uid_efecto uid_map uid (p : Proceso W) :
  cumple (procesar_uid uid_map uid) p
    (fun p' r =>
       mismo_marco p p' /\
       exists nuevas,
         notificaciones (traza p') = (nuevas ++ notificaciones (traza p))%list /\
         length nuevas <= 1 /\
         (es_ok r = false -> nuevas = [])).
Proof.
  unfold procesar_uid, obtener_cuerpo. pasos.
  all: unfold mismo_marco; campos; (split; [auto 10|]).
  all: trazas.
  all: first [ exists []; cbn; split; [reflexivity|]; split; [lia|]; reflexivity
             | eexists [_]; cbn; split; [reflexivity|]; split; [lia|]; discriminate ].
Qed.

(** The loop over the new identifiers: at most one push each. *)
Lemma para_cada_procesar_uid uid_map l (p : Proceso W) :
  cumple (para_cada (procesar_uid uid_map) l) p
    (fun p' r =>
       mismo_marco p p' /\
       exists nuevas,
         notificaciones (traza p') = (nuevas ++ notificaciones (traza p))%list /\
         length nuevas <= length l).
Proof.
  revert p. induction l as [|uid l IH]; intros p; cbn [para_cada].
  - apply cumple_ret. split; [apply mismo_marco_refl|]. exists []. split; [reflexivity|cbn; lia].
  - apply cumple_bind.
    eapply cumple_consecuencia; [apply procesar_uid_efecto|].
    intros p1 r1 (Hm1 & n1 & Hn1 & Hl1 & _). destruct r1 as [[]|e].
    + eapply cumple_consecuencia; [apply IH|].
      intros p2 r2 (Hm2 & n2 & Hn2 & Hl2). split; [eapply mismo_marco_trans; eassumption|].
      exists (n2 ++ n1)%list. rewrite Hn2, Hn1, app_assoc. split; [reflexivity|].
      rewrite length_app. cbn [length]. lia.
    + split; [assumption|]. exists n1. split; [assumption|]. cbn [length]. lia.
Qed.

(** A cycle whose session and listing succeed continues from there. *)
Lemma ciclo_con_listado (p p1 : Proceso W) act uid_map :
  sesion_y_listado p = (p1, Ok (act, uid_map)) ->
  ciclo p =
    bind (intentar (tras_listado act uid_map)
            (fun e => logger ERROR ("Error en ciclo de vigilancia: " +:+ e_texto e)))
         (fun _ => sleep 30000) p1.
Proof.
  intros Hs. unfold ciclo, intentar, cuerpo_ciclo, bind. rewrite Hs. reflexivity.
Qed.

Lemma cumple_ciclo (p p1 : Proceso W) act uid_map Q :
  sesion_y_listado p = (p1, Ok (act, uid_map)) ->
  cumple (bind (intentar (tras_listado act uid_map)
                  (fun e => logger ERROR ("Error en ciclo de vigilancia: " +:+ e_texto e)))
               (fun _ => sleep 30000)) p1 Q ->
  cumple ciclo p Q.
Proof. intros Hs. unfold cumple. now rewrite (ciclo_con_listado _ _ _ _ Hs). Qed.

Lemma cumple_eq {A} (m : M W A) (p p' : Proceso W) r Q :
  m p = (p', r) -> Q p' r -> cumple m p Q.
Proof. intros Hm. unfold cumple. now rewrite Hm. Qed.

Lemma para_cada_app {A} (f : A -> M W unit) l1 l2 (p : Proceso W) :
  para_cada f (l1 ++ l2) p =
  match para_cada f l1 p with
  | (p', Ok _) => para_cada f l2 p'
  | (p', Lanza e) => (p', Lanza e)
  end.
Proof.
  revert p. induction l1 as [|x l1 IH]; intros p; cbn [para_cada app].
  - reflexivity.
  - unfold bind. destruct (f x p) as [p' [[]|e]]; [apply IH|reflexivity].
Qed.


(** The first successful cycle: the initial synchronisation. *)
Lemma ciclo_primera_vuelta (p p1 : Proceso W) act uid_map :
  sesion_y_listado p = (p1, Ok (act, uid_map)) ->
  primera_vuelta p = true ->
  cumple ciclo p
    (fun p' r => r = Ok tt /\ uids_conocidos p' = act /\ primera_vuelta p' = false /\
                 state p' = state p /\
                 notificaciones (traza p') = notificaciones (traza p) /\
                 descargas (traza p') = descargas (traza p)).
Proof.
  intros Hs Hpv.
  destruct (tras_sesion_y_listado _ _ _ Hs) as (Hst & Hu & Hpv1 & _ & Hn & Hd & _).
  rewrite Hpv in Hpv1.
  eapply cumple_ciclo; [eassumption|]. unfold tras_listado. pasos.
  all: trazas; repeat split; congruence.
Qed.

(** A later cycle that finds no new identifier changes nothing. *)
Lemma ciclo_sin_nuevos (p p1 : Proceso W) act uid_map :
  sesion_y_listado p = (p1, Ok (act, uid_map)) ->
  primera_vuelta p = false ->
  act ∖ uids_conocidos p = ∅ ->
  cumple ciclo p
    (fun p' r => r = Ok tt /\ uids_conocidos p' = uids_conocidos p /\
                 primera_vuelta p' = false /\ state p' = state p /\
                 notificaciones (traza p') = notificaciones (traza p) /\
                 descargas (traza p') = descargas (traza p)).
Proof.
  intros Hs Hpv Hvacio.
  destruct (tras_sesion_y_listado _ _ _ Hs) as (Hst & Hu & Hpv1 & _ & Hn & Hd & _).
  rewrite Hpv in Hpv1.
  eapply cumple_ciclo; [eassumption|]. unfold tras_listado. pasos.
  all: try (rewrite Hu, Hvacio in *; match goal with
            | K : bool_decide (∅ = ∅) = false |- _ =>
                apply bool_decide_eq_false in K; now destruct K
            end).
  all: trazas; repeat split; congruence.
Qed.

(** A later cycle with new identifiers: what the loop leaves decides the
    cycle.  If the loop returns, the known identifiers are replaced and the
    session is closed; if it raises, the handler logs and nothing else is
    done. *)
Lemma cumple_ciclo_con_nuevos (p p1 : Proceso W) act uid_map Q :
  sesion_y_listado p = (p1, Ok (act, uid_map)) ->
  primera_vuelta p = false ->
  act ∖ uids_conocidos p <> ∅ ->
  cumple (para_cada (procesar_uid uid_map) (set_iter (act ∖ uids_conocidos p)))
    (inicio_bucle act p1)
    (fun p2 r =>
       match r with
       | Ok _ =>
           forall q, uids_conocidos q = act ->
                     primera_vuelta q = primera_vuelta p2 ->
                     state q = state p2 ->
                     notificaciones (traza q) = notificaciones (traza p2) ->
                     descargas (traza q) = descargas (traza p2) ->
                     Q q (Ok tt)
       | Lanza e =>
           Q (anotar (mundo p2) (EvSleep 30000)
                (anotar (mundo p2)
                   (EvLog ERROR ("Error en ciclo de vigilancia: " +:+ e_texto e)) p2))
             (Ok tt)
       end) ->
  cumple ciclo p Q.
Proof.
  intros Hs Hpv Hnuevos HQ.
  destruct (tras_sesion_y_listado _ _ _ Hs) as (_ & Hu & Hpv1 & _).
  rewrite Hpv in Hpv1.
  eapply cumple_ciclo; [eassumption|]. unfold tras_listado.
  apply cumple_bind, cumple_intentar, cumple_bind, cumple_leer. cbv beta.
  apply cumple_bind. rewrite Hpv1.
  apply cumple_bind, cumple_leer. cbv beta. rewrite Hu.
  rewrite (bool_decide_eq_false_2 _ Hnuevos).
  unfold con_nuevos. apply cumple_bind, cumple_registrar. cbv beta.
  unfold inicio_bucle in HQ. rewrite Hu in HQ.
  apply cumple_bind. eapply cumple_consecuencia; [exact HQ|].
  intros p2 [[]|e] H2; cbv beta.
  - pasos. all: apply H2; campos; trazas; reflexivity.
  - pasos. exact H2.
Qed.




End Vigilante.

(** ** The poll cycle: main results *)

Section CicloDeSondeo.
Context {lib : Biblioteca} {W : Type} {ext : Exterior W}.

(** The watcher never writes the mode flags or the configuration. *)
Lemma ciclo_marco (p : Proceso W) :
  cumple ciclo p
    (fun p' r => r = Ok tt /\ config p' = config p /\
                 modo_respuesta (state p') = modo_respuesta (state p) /\
                 modo_ticket (state p') = modo_ticket (state p)).
Proof.
  destruct (sesion_y_listado p) as [p1 [[act uid_map]|e]] eqn:Hs.
  - destruct (tras_sesion_y_listado _ _ _ Hs) as (Hst & _ & _ & Hc & _).
    eapply cumple_ciclo; [eassumption|]. unfold tras_listado, con_nuevos. pasos.
    all: try (eapply cumple_consecuencia; [apply para_cada_procesar_uid|];
              intros p2 [[]|e2] ((_ & _ & Hc2 & Hr2 & Ht2) & _); cbv beta; pasos).
    all: campos; repeat split; congruence.
  - unfold cumple. rewrite (ciclo_sin_listado _ _ _ Hs).
    destruct (tras_sesion_y_listado _ _ _ Hs) as (Hst & _ & _ & Hc & _).
    cbn [fst snd]. campos. repeat split; congruence.
Qed.

(** C4.  If the connection, the authentication or the listing of a poll
    cycle raises, the cycle still returns, with the known identifiers, the
    first-turn flag and the shared state as they were; it pushes no
    notification (no Telegram call at all) and fetches no message; the
    failure is logged. *)
Theorem ciclo_fallido_aislado (p p1 : Proceso W) (e : Excepcion) :
  sesion_y_listado p = (p1, Lanza e) ->
  snd (ciclo p) = Ok tt /\
  uids_conocidos (fst (ciclo p)) = uids_conocidos p /\
  primera_vuelta (fst (ciclo p)) = primera_vuelta p /\
  state (fst (ciclo p)) = state p /\
  notificaciones (traza (fst (ciclo p))) = notificaciones (traza p) /\
  List.filter es_telegram (traza (fst (ciclo p))) = List.filter es_telegram (traza p) /\
  descargas (traza (fst (ciclo p))) = descargas (traza p) /\
  traza (fst (ciclo p)) =
    EvSleep 30000 :: EvLog ERROR ("Error en ciclo de vigilancia: " +:+ e_texto e) :: traza p1.
Proof.
  intros Hs. rewrite (ciclo_sin_listado _ _ _ Hs).
  destruct (tras_sesion_y_listado _ _ _ Hs) as (Hst & Hu & Hpv & _ & Hn & Hd & Ht).
  cbn [fst snd]. campos. trazas. repeat split; assumption.
Qed.


(** C2, as the code has it.  After a cycle whose session and listing
    succeed, the known identifiers are either the current listing or what
    they were.  They are replaced on the first such cycle and on a later
    cycle whose loop over the new identifiers returns; they are kept on a
    later cycle with no new identifier, and then contain the listing. *)
Theorem resincronizacion_tras_listado (p p1 : Proceso W) (act : gset string)
    (uid_map : gmap string Z) :
  sesion_y_listado p = (p1, Ok (act, uid_map)) ->
  (primera_vuelta p = true ->
     uids_conocidos (fst (ciclo p)) = act /\ primera_vuelta (fst (ciclo p)) = false) /\
  (primera_vuelta p = false -> act ∖ uids_conocidos p = ∅ ->
     uids_conocidos (fst (ciclo p)) = uids_conocidos p /\
     act ⊆ uids_conocidos (fst (ciclo p))) /\
  (primera_vuelta p = false -> act ∖ uids_conocidos p <> ∅ ->
     forall p2,
       para_cada (procesar_uid uid_map) (set_iter (act ∖ uids_conocidos p))
         (inicio_bucle act p1) = (p2, Ok tt) ->
       uids_conocidos (fst (ciclo p)) = act).
Proof.
  intros Hs. split; [|split].
  - intros Hpv. generalize (ciclo_primera_vuelta _ _ _ _ Hs Hpv). unfold cumple. tauto.
  - intros Hpv Hvacio. generalize (ciclo_sin_nuevos _ _ _ _ Hs Hpv Hvacio).
    unfold cumple. intros (_ & Hu & _). split; [assumption|]. rewrite Hu.
    intros x Hx. destruct (decide (x ∈ uids_conocidos p)) as [|Hno]; [assumption|].
    exfalso. apply (not_elem_of_empty (C := gset string) x). rewrite <- Hvacio.
    apply elem_of_difference. now split.
  - intros Hpv Hnuevos p2 Hbucle.
    change (cumple ciclo p (fun p' _ => uids_conocidos p' = act)).
    eapply cumple_ciclo_con_nuevos; [eassumption|assumption|assumption|].
    eapply cumple_eq; [exact Hbucle|]. intros q Hq _ _ _ _. exact Hq.
Qed.


End CicloDeSondeo.

(** ** The chat controller: main results *)

Section MaquinaDeEstados.
Context {lib : Biblioteca} {W : Type} {ext : Exterior W}.


(** When the reply of a ticket-confirmation turn is not delivered, the
    handler is left before the flag is cleared. *)
Lemma turno_ticket_sin_entrega (message : MensajeTg) (p : Proceso W) :
  modo_ticket (state p) = true ->
  forall e, snd (responder_chat message p) = Lanza e ->
  state (fst (responder_chat message p)) = state p.
Proof.
  intros Ht.
  change (cumple (responder_chat message) p
            (fun p' r => forall e, r = Lanza e -> state p' = state p)).
  unfold responder_chat. cbv zeta. pasos.
  all: intros; try discriminate; reflexivity.
Qed.

(** C7, as the code has it.  Between chat turns at most one of the two
    awaiting flags is set: the initial state has none, and neither a chat
    turn nor a poll cycle sets a second one, whatever their outcome.  A
    delivered turn that starts in AwaitingTicketConfirmation ends in Idle.
    A delivered turn that starts in AwaitingReplyDraft ends in Idle or in
    AwaitingTicketConfirmation, the latter only after an email was sent
    whose body holds a support keyword; it never ends in
    AwaitingReplyDraft. *)
Theorem modos_entre_turnos :
  modo estado_inicial = Some Idle /\
  (forall message (p : Proceso W),
     is_Some (modo (state p)) -> is_Some (modo (state (fst (responder_chat message p))))) /\
  (forall p : Proceso W, modo (state (fst (ciclo p))) = modo (state p)) /\
  (telegram_fiable ->
   forall message (p : Proceso W),
     modo (state p) = Some AwaitingTicketConfirmation ->
     modo (state (fst (responder_chat message p))) = Some Idle) /\
  (telegram_fiable ->
   forall message (p : Proceso W),
     modo (state p) = Some AwaitingReplyDraft ->
     modo (state (fst (responder_chat message p))) = Some Idle \/
     (modo (state (fst (responder_chat message p))) = Some AwaitingTicketConfirmation /\
      exists correo,
        In (EvSmtp correo true) (traza (fst (responder_chat message p))) /\
        alguna_en keywords (str_lower (c_body correo)) = true)).
Proof.
  split; [reflexivity|]. split; [|split; [|split]].
  - intros message p Hm. apply is_Some_modo. apply is_Some_modo in Hm.
    exact (responder_chat_a_lo_sumo_uno message p Hm).
  - intros p. destruct (ciclo_marco p) as (_ & _ & Hr & Ht).
    unfold modo. now rewrite Hr, Ht.
  - intros Hf message p Hm. exact (proj2 (turno_ticket message p Hf Hm)).
  - intros Hf message p Hm. exact (proj2 (turno_respuesta message p Hf Hm)).
Qed.

Lemma charla_frame (ms : list MensajeTg) (p : Proceso W) :
  ultimo_remitente (state (charla ms p)) = ultimo_remitente (state p) /\
  ultimo_asunto (state (charla ms p)) = ultimo_asunto (state p).
Proof.
  revert p. unfold charla. induction ms as [|message ms IH]; intros p; cbn [fold_left].
  - now split.
  - destruct (IH (fst (responder_chat message p))) as [Hr Ha].
    destruct (responder_chat_frame message p) as [Hr' Ha'].
    split; congruence.
Qed.

(** C9.  No chat turn writes the pending sender or the pending subject,
    whatever it does and however it ends; so after any chat turns, an
    affirmative input in Idle with a pending sender sets the drafting
    mode again, for the same sender. *)
Theorem pendientes_intactos (ms : list MensajeTg) (message : MensajeTg) (p : Proceso W) :
  (ultimo_remitente (state (charla ms p)) = ultimo_remitente (state p) /\
   ultimo_asunto (state (charla ms p)) = ultimo_asunto (state p)) /\
  (verdadero (ultimo_remitente (state p)) = true ->
   modo (state (charla ms p)) = Some Idle ->
   alguna_en afirmativos (str_lower (text message)) = true ->
   modo (state (fst (responder_chat message (charla ms p)))) = Some AwaitingReplyDraft /\
   ultimo_remitente (state (fst (responder_chat message (charla ms p))))
     = ultimo_remitente (state p) /\
   ultimo_asunto (state (fst (responder_chat message (charla ms p))))
     = ultimo_asunto (state p) /\
   exists ok,
     traza (fst (responder_chat message (charla ms p)))
       = EvReplyTo message (texto_con_gusto (ultimo_remitente (state p))) ok
         :: traza (charla ms p)).
Proof.
  destruct (charla_frame ms p) as [Hr Ha]. split; [now split|].
  intros Hv Hm Haf. destruct (modo_idle_inv _ Hm) as [Ht Hd].
  rewrite <- Hr in Hv. rewrite <- Hr, <- Ha.
  revert Hv Ht Hd. generalize (charla ms p). intros q Hv Ht Hd.
  change (cumple (responder_chat message) q
    (fun p' _ =>
       modo (state p') = Some AwaitingReplyDraft /\
       ultimo_remitente (state p') = ultimo_remitente (state q) /\
       ultimo_asunto (state p') = ultimo_asunto (state q) /\
       exists ok, traza p' = EvReplyTo message (texto_con_gusto (ultimo_remitente (state q))) ok
                               :: traza q)).
  unfold responder_chat. cbv zeta. pasos.
  all: unfold modo; campos; rewrite Ht; repeat split; eexists; reflexivity.
Qed.

(** C10.  In a reply-drafting turn whose language-model call raises, the
    send is not given up: the email goes to the SMTP session with the
    fixed placeholder as its body, and the keyword scan that arms the
    ticket mode reads that placeholder; the drafting mode is cleared. *)
Theorem borrador_sin_modelo (message : MensajeTg) (p : Proceso W) :
  telegram_fiable ->
  modo (state p) = Some AwaitingReplyDraft ->
  (forall w,
     es_ok (snd (generate_content
                   (prompt_respuesta (ultimo_remitente (state p)) (ultimo_asunto (state p))
                      (text message)) w)) = false) ->
  snd (responder_chat message p) = Ok tt /\
  exists ok,
    In (EvSmtp {| c_subject := "Re: " +:+ fmt (ultimo_asunto (state p));
                  c_from := EMAIL_USER (config p);
                  c_to := ultimo_remitente (state p);
                  c_body := gemini_no_disponible |} ok)
       (traza (fst (responder_chat message p))) /\
    modo_ticket (state (fst (responder_chat message p)))
      = ok && alguna_en keywords (str_lower gemini_no_disponible) /\
    modo_respuesta (state (fst (responder_chat message p))) = false.
Proof.
  intros Hf Hm Hfalla. destruct (modo_respuesta_inv _ Hm) as [Ht Hr].
  change (cumple (responder_chat message) p
    (fun p' r =>
       r = Ok tt /\
       exists ok,
         In (EvSmtp {| c_subject := "Re: " +:+ fmt (ultimo_asunto (state p));
                       c_from := EMAIL_USER (config p);
                       c_to := ultimo_remitente (state p);
                       c_body := gemini_no_disponible |} ok) (traza p') /\
         modo_ticket (state p') = ok && alguna_en keywords (str_lower gemini_no_disponible) /\
         modo_respuesta (state p') = false)).
  unfold responder_chat. cbv zeta. pasos.
  all: entrega Hf.
  all: try (exfalso; match goal with
            | E : generate_content ?q ?w = (_, Ok _) |- _ =>
                generalize (Hfalla w); rewrite E; discriminate
            end).
  all: (split; [repeat match goal with u : unit |- _ => destruct u end; reflexivity|]).
  all: eexists; split; [cbn [In]; eauto 10|].
  all: repeat match goal with K : alguna_en _ _ = _ |- _ => rewrite K end.
  all: rewrite ?Ht; split; reflexivity.
Qed.

End MaquinaDeEstados.

(** ** The start-up: main results *)

Section Validacion.
Context {lib : Biblioteca} {W : Type} {ext : Exterior W}.

Lemma entorno_valido_spec (cfg : Config) :
  entorno_valido cfg = true <->
  verdadero (TELEGRAM_TOKEN cfg) = true /\ verdadero (EMAIL_USER cfg) = true /\
  verdadero (EMAIL_PASS cfg) = true /\ verdadero (PROJECT_ID cfg) = true.
Proof.
  unfold entorno_valido. cbn [forallb]. rewrite !andb_true_iff. tauto.
Qed.

(** C8, as the code has it.  When the Telegram token, the mail user, the
    mail password or the model project is absent or empty, no loop is
    started: the process exits with status 1 as soon as the environment is
    read (or dies on a port that is no integer).  A process that does
    start has the four, port 995 when none is given and location
    us-central1 when none is given. *)
Theorem validacion_de_arranque (env : gmap string string) (w : W) :
  (verdadero (env !! "TELEGRAM_TOKEN") = false \/ verdadero (env !! "EMAIL_USER") = false \/
   verdadero (env !! "EMAIL_PASS") = false \/ verdadero (env !! "GOOGLE_CLOUD_PROJECT") = false ->
   en_marcha (arranque env w) = false /\
   (forall cfg, leer_config env = Ok cfg ->
      arranque env w =
        Sale 1 [EvPrint "CRITICAL: Faltan variables de entorno. Revise el archivo .env"])) /\
  (forall p, arranque env w = EnMarcha p ->
     verdadero (env !! "TELEGRAM_TOKEN") = true /\ verdadero (env !! "EMAIL_USER") = true /\
     verdadero (env !! "EMAIL_PASS") = true /\ verdadero (env !! "GOOGLE_CLOUD_PROJECT") = true /\
     (env !! "EMAIL_PORT" = None -> EMAIL_PORT (config p) = 995%Z) /\
     (env !! "GOOGLE_CLOUD_LOCATION" = None -> LOCATION (config p) = "us-central1")).
Proof.
  assert (Hcampos : forall cfg, leer_config env = Ok cfg ->
            TELEGRAM_TOKEN cfg = env !! "TELEGRAM_TOKEN" /\ EMAIL_USER cfg = env !! "EMAIL_USER" /\
            EMAIL_PASS cfg = env !! "EMAIL_PASS" /\ PROJECT_ID cfg = env !! "GOOGLE_CLOUD_PROJECT" /\
            (env !! "EMAIL_PORT" = None -> EMAIL_PORT cfg = 995%Z) /\
            (env !! "GOOGLE_CLOUD_LOCATION" = None -> LOCATION cfg = "us-central1")).
  { intros cfg. unfold leer_config.
    destruct (env !! "EMAIL_PORT") as [s|]; [destruct (py_int s)|]; intros Hc;
      inversion Hc; subst; cbn; repeat split; try discriminate; try reflexivity;
      intros ->; reflexivity. }
  split.
  - intros Hfalta. unfold arranque.
    destruct (leer_config env) as [cfg|e] eqn:Hc; [|split; [reflexivity|discriminate]].
    destruct (Hcampos cfg eq_refl) as (Ht & Hu & Hp & Hj & _).
    assert (Hv : entorno_valido cfg = false).
    { destruct (entorno_valido cfg) eqn:Hv; [|reflexivity].
      apply entorno_valido_spec in Hv. rewrite Ht, Hu, Hp, Hj in Hv.
      destruct Hv as (? & ? & ? & ?). destruct Hfalta as [|[|[|]]]; congruence. }
    rewrite Hv. cbn [negb]. split; [reflexivity|]. intros cfg' Hc'. reflexivity.
  - intros p. unfold arranque.
    destruct (leer_config env) as [cfg|e] eqn:Hc; [|discriminate].
    destruct (Hcampos cfg eq_refl) as (Ht & Hu & Hp & Hj & Hport & Hloc).
    destruct (entorno_valido cfg) eqn:Hv; cbn [negb]; [|discriminate].
    apply entorno_valido_spec in Hv. rewrite Ht, Hu, Hp, Hj in Hv.
    destruct (iniciar_servicios cfg w) as [w' [[]|e]]; [|discriminate].
    intros Hp'. inversion Hp'; subst. cbn [config]. tauto.
Qed.

End Validacion.

(** * Further properties of the code *)

(** ** Strings *)

Section Cadenas.

Lemma contiene_caracter_cons (c d : ascii) (s : string) :
  contiene (String c EmptyString) (String d s) = false ->
  c <> d /\ contiene (String c EmptyString) s = false.
Proof.
  cbn [contiene String.prefix]. intros Hc. apply orb_false_iff in Hc as [Hp Hr].
  split; [|exact Hr]. destruct (ascii_dec c d) as [->|Hne]; [|assumption].
  destruct s; cbn in Hp; discriminate Hp.
Qed.

Lemma contiene_caracter_app (c : ascii) (a b : string) :
  contiene (String c EmptyString) (a +:+ String c b) = true.
Proof.
  induction a as [|d a IH].
  - change (EmptyString +:+ String c b) with (String c b). cbn [contiene String.prefix].
    destruct (ascii_dec c c) as [_|Hne]; [|congruence]. now destruct b.
  - change (String d a +:+ String c b) with (String d (a +:+ String c b)).
    cbn [contiene]. rewrite IH. apply orb_true_r.
Qed.

Lemma eqb_distinto (c d : ascii) : c <> d -> Ascii.eqb d c = false.
Proof. intros Hne. apply Ascii.eqb_neq. congruence. Qed.

(** Splitting a string that does not hold the separator. *)
Lemma str_split_sin_separador (c : ascii) (s : string) :
  contiene (String c EmptyString) s = false -> str_split c s = [s].
Proof.
  induction s as [|d s IH]; intros Hc; [reflexivity|].
  apply contiene_caracter_cons in Hc as [Hne Hr].
  cbn [str_split]. rewrite (eqb_distinto _ _ Hne), (IH Hr). reflexivity.
Qed.

(** Splitting at the first separator. *)
Lemma str_split_primer_separador (c : ascii) (a b : string) :
  contiene (String c EmptyString) a = false ->
  str_split c (a +:+ String c b) = a :: str_split c b.
Proof.
  induction a as [|d a IH]; intros Hc.
  - change (EmptyString +:+ String c b) with (String c b). cbn [str_split].
    now rewrite Ascii.eqb_refl.
  - apply contiene_caracter_cons in Hc as [Hne Hr].
    change (String d a +:+ String c b) with (String d (a +:+ String c b)).
    cbn [str_split]. rewrite (eqb_distinto _ _ Hne), (IH Hr). reflexivity.
Qed.

Lemma str_quitar_app (c : ascii) (a b : string) :
  str_quitar c (a +:+ b) = str_quitar c a +:+ str_quitar c b.
Proof.
  induction a as [|d a IH]; [reflexivity|].
  change (String d a +:+ b) with (String d (a +:+ b)).
  cbn [str_quitar]. destruct (Ascii.eqb d c); [exact IH|].
  change (String d (str_quitar c a) +:+ str_quitar c b)
    with (String d (str_quitar c a +:+ str_quitar c b)).
  now rewrite IH.
Qed.

Lemma str_quitar_sin (c : ascii) (s : string) :
  contiene (String c EmptyString) s = false -> str_quitar c s = s.
Proof.
  induction s as [|d s IH]; intros Hc; [reflexivity|].
  apply contiene_caracter_cons in Hc as [Hne Hr].
  cbn [str_quitar]. rewrite (eqb_distinto _ _ Hne), (IH Hr). reflexivity.
Qed.

Lemma str_quitar_quitado (c : ascii) (s : string) :
  contiene (String c EmptyString) (str_quitar c s) = false.
Proof.
  induction s as [|d s IH]; [reflexivity|].
  cbn [str_quitar]. destruct (Ascii.eqb d c) eqn:Hd; [exact IH|].
  cbn [contiene String.prefix]. rewrite IH.
  destruct (ascii_dec c d) as [->|Hne]; [|reflexivity].
  now rewrite Ascii.eqb_refl in Hd.
Qed.

Lemma contiene_caracter_cons_inv (c d : ascii) (s : string) :
  c <> d -> contiene (String c EmptyString) s = false ->
  contiene (String c EmptyString) (String d s) = false.
Proof.
  intros Hne Hr. cbn [contiene String.prefix]. rewrite Hr.
  destruct (ascii_dec c d); [contradiction|reflexivity].
Qed.

(** A string that holds [c], cut at the first [c]. *)
Lemma contiene_caracter_primero (c : ascii) (s : string) :
  contiene (String c EmptyString) s = true ->
  exists a b, s = a +:+ String c b /\ contiene (String c EmptyString) a = false.
Proof.
  induction s as [|d s IH]; intros Hc; [discriminate|].
  destruct (ascii_dec c d) as [<-|Hne].
  - exists EmptyString, s. split; reflexivity.
  - cbn [contiene String.prefix] in Hc.
    destruct (ascii_dec c d) as [|_]; [contradiction|]. cbn [orb] in Hc.
    destruct (IH Hc) as (a & b & -> & Ha).
    exists (String d a), b. split; [reflexivity|].
    now apply contiene_caracter_cons_inv.
Qed.

(** The first piece of a split does not hold the separator. *)
Lemma str_split_cabeza (c : ascii) (s : string) :
  exists h t, str_split c s = h :: t /\ contiene (String c EmptyString) h = false.
Proof.
  induction s as [|d s (h & t & Hs & Hh)].
  - exists EmptyString, []. split; reflexivity.
  - cbn [str_split]. destruct (Ascii.eqb d c) eqn:Hd.
    + exists EmptyString, (str_split c s). split; reflexivity.
    + rewrite Hs. exists (String d h), t. split; [reflexivity|].
      apply contiene_caracter_cons_inv; [|assumption].
      intros ->. now rewrite Ascii.eqb_refl in Hd.
Qed.

Lemma str_quitar_conserva (c d : ascii) (s : string) :
  contiene (String d EmptyString) s = false ->
  contiene (String d EmptyString) (str_quitar c s) = false.
Proof.
  induction s as [|x s IH]; intros Hc; [reflexivity|].
  apply contiene_caracter_cons in Hc as [Hne Hr].
  cbn [str_quitar]. destruct (Ascii.eqb x c); [now apply IH|].
  apply contiene_caracter_cons_inv; [assumption|now apply IH].
Qed.

End Cadenas.

(** ** Mail utilities *)

Section UtilidadesDeCorreo.
Context {lib : Biblioteca}.

(** X1.  Sender sanitisation.  A sender without an opening bracket is kept
    as it is.  A sender of the form name, bracketed address, rest yields
    the address followed by the rest without its closing brackets (the
    text after the address is not dropped).  Whenever the sender holds an
    opening bracket, the result holds neither bracket. *)
Theorem direccion_limpia :
  (forall remitente, contiene "<" remitente = false -> limpiar_remitente remitente = remitente) /\
  (forall nombre addr cola,
     contiene "<" nombre = false -> contiene "<" addr = false ->
     contiene ">" addr = false -> contiene "<" cola = false ->
     limpiar_remitente (nombre +:+ "<" +:+ addr +:+ ">" +:+ cola)
       = addr +:+ str_quitar ">"%char cola) /\
  (forall remitente, contiene "<" remitente = true ->
     contiene "<" (limpiar_remitente remitente) = false /\
     contiene ">" (limpiar_remitente remitente) = false).
Proof.
  split; [|split].
  - intros remitente Hc. unfold limpiar_remitente. now rewrite Hc.
  - intros nombre addr cola Hn Ha Ha' Hcola. unfold limpiar_remitente.
    change ("<" +:+ addr +:+ ">" +:+ cola) with (String "<" (addr +:+ ">" +:+ cola)).
    rewrite contiene_caracter_app, (str_split_primer_separador _ _ _ Hn).
    assert (Hresto : contiene "<" (addr +:+ ">" +:+ cola) = false).
    { clear Hn Ha'. induction addr as [|d addr IH].
      - change (EmptyString +:+ ">" +:+ cola) with (String ">" cola).
        now apply contiene_caracter_cons_inv.
      - apply contiene_caracter_cons in Ha as [Hne Hr].
        change (String d addr +:+ ">" +:+ cola) with (String d (addr +:+ ">" +:+ cola)).
        apply contiene_caracter_cons_inv; auto. }
    rewrite (str_split_sin_separador _ _ Hresto), str_quitar_app, (str_quitar_sin _ _ Ha').
    change (">" +:+ cola) with (String ">" cola). cbn [str_quitar].
    now rewrite Ascii.eqb_refl.
  - intros remitente Hc. unfold limpiar_remitente. rewrite Hc.
    destruct (contiene_caracter_primero _ _ Hc) as (a & b & -> & Ha).
    rewrite (str_split_primer_separador _ _ _ Ha).
    destruct (str_split_cabeza "<" b) as (h & t & -> & Hh).
    split; [now apply str_quitar_conserva|apply str_quitar_quitado].
Qed.

(** The identifiers read so far are the keys of the map read so far. *)
Lemma leer_items_dom (items : list string) (uids uids' : gset string)
    (uid_map uid_map' : gmap string Z) :
  uids = dom uid_map ->
  leer_items items uids uid_map = Ok (uids', uid_map') ->
  uids' = dom uid_map'.
Proof.
  revert uids uid_map. induction items as [|item resto IH]; intros uids uid_map Hd; cbn [leer_items].
  - intros Hr. inversion Hr; subst. reflexivity.
  - destruct (bytes_decode "utf-8" item) as [linea|e]; [|discriminate].
    destruct (str_split " " linea) as [|p0 [|uid ps]]; try (apply IH; assumption).
    destruct (py_int p0) as [num|e]; [|discriminate].
    apply IH. rewrite dom_insert_L. now rewrite Hd.
Qed.

(** X2.  A line of the listing that decodes to a text without a space is
    dropped wherever it stands: the listing reads as if it were absent. *)
Theorem linea_sin_espacio_ignorada (pre resto : list string) (item linea : string)
    (uids : gset string) (uid_map : gmap string Z) :
  bytes_decode "utf-8" item = Ok linea ->
  contiene " " linea = false ->
  leer_items (pre ++ item :: resto)%list uids uid_map = leer_items (pre ++ resto)%list uids uid_map.
Proof.
  intros Hd Hs. revert uids uid_map.
  induction pre as [|x pre IH]; intros uids uid_map; cbn [app leer_items].
  - rewrite Hd, (str_split_sin_separador _ _ Hs). reflexivity.
  - destruct (bytes_decode "utf-8" x) as [l|e]; [|reflexivity].
    destruct (str_split " " l) as [|p0 [|uid ps]]; try apply IH.
    destruct (py_int p0); [apply IH|reflexivity].
Qed.

End UtilidadesDeCorreo.

(** ** More on the poll cycle *)

Section MasDelCiclo.
Context {lib : Biblioteca} {W : Type} {ext : Exterior W}.

(** X3.  The listing is coherent: the set of identifiers it returns is the
    key set of the map it returns, so every listed identifier has a
    sequence number (the loop's [uid_map.get(uid)] never misses). *)
Theorem listado_coherente (p : Proceso W) (uids : gset string) (uid_map : gmap string Z) :
  snd (obtener_lista_uids_con_mapa p) = Ok (uids, uid_map) ->
  uids = dom uid_map /\
  forall uid, uid ∈ uids -> exists msg_num, uid_map !! uid = Some msg_num.
Proof.
  unfold obtener_lista_uids_con_mapa, bind, externo, de_resultado.
  destruct (pop_uidl (mundo p)) as [w [items|e]]; cbn [snd]; [|discriminate].
  intros Hl. assert (Hd : uids = dom uid_map).
  { eapply leer_items_dom; [|exact Hl]. now rewrite dom_empty_L. }
  split; [assumption|]. intros uid Hu. rewrite Hd in Hu.
  apply elem_of_dom in Hu as [n Hn]. now exists n.
Qed.

(** X4.  The first cycle whose session and listing succeed is the initial
    synchronisation: the listing becomes the known set, the count is
    logged, and nothing is fetched, pushed or written to the shared state,
    however many messages the mailbox holds. *)
Theorem sincronizacion_inicial (p p1 : Proceso W) (act : gset string)
    (uid_map : gmap string Z) :
  sesion_y_listado p = (p1, Ok (act, uid_map)) ->
  primera_vuelta p = true ->
  snd (ciclo p) = Ok tt /\
  uids_conocidos (fst (ciclo p)) = act /\
  primera_vuelta (fst (ciclo p)) = false /\
  state (fst (ciclo p)) = state p /\
  descargas (traza (fst (ciclo p))) = descargas (traza p) /\
  List.filter es_telegram (traza (fst (ciclo p))) = List.filter es_telegram (traza p) /\
  In (EvLog INFO ("Sincronización inicial completada. " +:+ pretty (size act) +:+
                  " correos previos."))
     (traza (fst (ciclo p))).
Proof.
  intros Hs Hpv.
  destruct (tras_sesion_y_listado _ _ _ Hs) as (Hst & Hu & Hpv1 & _ & Hn & Hd & Ht).
  rewrite Hpv in Hpv1.
  change (cumple ciclo p (fun p' r =>
    r = Ok tt /\ uids_conocidos p' = act /\ primera_vuelta p' = false /\
    state p' = state p /\ descargas (traza p') = descargas (traza p) /\
    List.filter es_telegram (traza p') = List.filter es_telegram (traza p) /\
    In (EvLog INFO ("Sincronización inicial completada. " +:+ pretty (size act) +:+
                    " correos previos.")) (traza p'))).
  eapply cumple_ciclo; [eassumption|]. unfold tras_listado. pasos.
  all: trazas; repeat split; try congruence; cbn [In]; auto 6.
Qed.

Lemma length_set_iter (s : gset string) : length (set_iter s) = size s.
Proof. now rewrite set_iter_perm. Qed.

(** X5.  After the initial synchronisation a cycle pushes at most one
    notification per identifier that is listed and not yet known, whatever
    fails on the way; with nothing new it pushes none. *)
Theorem a_lo_sumo_una_notificacion_por_nuevo (p p1 : Proceso W) (act : gset string)
    (uid_map : gmap string Z) :
  sesion_y_listado p = (p1, Ok (act, uid_map)) ->
  primera_vuelta p = false ->
  exists nuevas,
    notificaciones (traza (fst (ciclo p))) = (nuevas ++ notificaciones (traza p))%list /\
    length nuevas <= size (act ∖ uids_conocidos p).
Proof.
  intros Hs Hpv.
  destruct (tras_sesion_y_listado _ _ _ Hs) as (_ & _ & _ & _ & Hn1 & _).
  destruct (decide (act ∖ uids_conocidos p = ∅)) as [Hvacio|Hnuevos].
  - destruct (ciclo_sin_nuevos _ _ _ _ Hs Hpv Hvacio) as (_ & _ & _ & _ & Hn & _).
    exists []. split; [exact Hn|cbn; lia].
  - change (cumple ciclo p (fun p' _ =>
      exists nuevas,
        notificaciones (traza p') = (nuevas ++ notificaciones (traza p))%list /\
        length nuevas <= size (act ∖ uids_conocidos p))).
    eapply cumple_ciclo_con_nuevos; [eassumption|assumption|assumption|].
    eapply cumple_consecuencia; [apply para_cada_procesar_uid|].
    intros p2 r (_ & nuevas & Hn2 & Hl). rewrite length_set_iter in Hl.
    assert (Hn2' : notificaciones (traza p2) = (nuevas ++ notificaciones (traza p))%list).
    { rewrite Hn2. unfold inicio_bucle. campos. trazas. now rewrite Hn1. }
    destruct r as [[]|e].
    + intros q _ _ _ Hnq _. exists nuevas. split; [congruence|assumption].
    + exists nuevas. campos. trazas. split; assumption.
Qed.

Lemma ciclos_marco (n : nat) (p : Proceso W) :
  cumple (ciclos n) p
    (fun p' r => r = Ok tt /\ config p' = config p /\
                 modo_respuesta (state p') = modo_respuesta (state p) /\
                 modo_ticket (state p') = modo_ticket (state p)).
Proof.
  revert p. induction n as [|n IH]; intros p; cbn [ciclos].
  - apply cumple_ret. now repeat split.
  - apply cumple_bind. eapply cumple_consecuencia; [apply ciclo_marco|].
    intros p1 r (-> & Hc & Hr & Ht).
    eapply cumple_consecuencia; [apply IH|].
    intros p2 r2 (-> & Hc2 & Hr2 & Ht2). repeat split; congruence.
Qed.

(** X6.  The watcher never dies: whatever the servers do, any number of
    turns of its loop returns, and it never writes the configuration or
    the controller's mode. *)
Theorem el_vigilante_no_muere (n : nat) (p : Proceso W) :
  snd (ciclo_correos n p) = Ok tt /\
  config (fst (ciclo_correos n p)) = config p /\
  modo (state (fst (ciclo_correos n p))) = modo (state p).
Proof.
  change (cumple (ciclo_correos n) p
            (fun p' r => r = Ok tt /\ config p' = config p /\ modo (state p') = modo (state p))).
  unfold ciclo_correos. pasos.
  eapply cumple_consecuencia; [apply ciclos_marco|].
  intros p' r (-> & Hc & Hr & Ht). campos. unfold modo. rewrite Hr, Ht. now repeat split.
Qed.

(** What the processing of one fetched or refused message writes. *)
Lemma procesar_uid_estado (uid_map : gmap string Z) (uid : string) (n : Z)
    (p : Proceso W) :
  uid_map !! uid = Some n ->
  n <> 0%Z ->
  (forall w lines,
     pop_retr n (mundo p) = (w, Ok lines) ->
     state (fst (procesar_uid uid_map uid p)) =
       con_remitente_y_asunto
         (limpiar_remitente
            (snd (obtener_asunto_y_remitente (message_from_bytes (String.concat crlf lines)))))
         (fst (obtener_asunto_y_remitente (message_from_bytes (String.concat crlf lines))))
         (state p)) /\
  (forall w e,
     pop_retr n (mundo p) = (w, Lanza e) ->
     state (fst (procesar_uid uid_map uid p)) = state p /\
     snd (procesar_uid uid_map uid p) = Lanza e).
Proof.
  intros Hn Hn0. apply Z.eqb_neq in Hn0.
  change (cumple (procesar_uid uid_map uid) p (fun p' r =>
    (forall w lines,
       pop_retr n (mundo p) = (w, Ok lines) ->
       state p' =
         con_remitente_y_asunto
           (limpiar_remitente
              (snd (obtener_asunto_y_remitente (message_from_bytes (String.concat crlf lines)))))
           (fst (obtener_asunto_y_remitente (message_from_bytes (String.concat crlf lines))))
           (state p)) /\
    (forall w e, pop_retr n (mundo p) = (w, Lanza e) -> state p' = state p /\ r = Lanza e))).
  unfold procesar_uid. rewrite Hn, Hn0. unfold obtener_cuerpo. pasos.
  all: split; intros w' x Hx; rewrite E in Hx; inversion Hx; subst;
       try reflexivity; split; reflexivity.
Qed.


(** X8.  Last new mail wins: when the loop over the new identifiers
    returns, the pending sender and subject are those of the message it
    fetched last. *)
Theorem el_ultimo_correo_gana (uid_map : gmap string Z) (l : list string) (u : string)
    (n : Z) (p p' : Proceso W) :
  uid_map !! u = Some n ->
  n <> 0%Z ->
  para_cada (procesar_uid uid_map) (l ++ [u])%list p = (p', Ok tt) ->
  exists w w' lines,
    pop_retr n w = (w', Ok lines) /\
    ultimo_remitente (state p') =
      Some (limpiar_remitente
              (snd (obtener_asunto_y_remitente (message_from_bytes (String.concat crlf lines))))) /\
    ultimo_asunto (state p') =
      Some (fst (obtener_asunto_y_remitente (message_from_bytes (String.concat crlf lines)))).
Proof.
  intros Hn Hn0. rewrite para_cada_app.
  destruct (para_cada (procesar_uid uid_map) l p) as [p2 [[]|e]]; [|discriminate].
  cbn [para_cada]. unfold bind, ret.
  destruct (procesar_uid_estado uid_map u n p2 Hn Hn0) as [Hok Hfalla].
  destruct (procesar_uid uid_map u p2) as [p3 [[]|e]] eqn:Hp3; [|discriminate].
  intros Hp'. inversion Hp'; subst p'. cbn [fst snd] in *.
  destruct (pop_retr n (mundo p2)) as [w' [lines|e]] eqn:E.
  - exists (mundo p2), w', lines. split; [exact E|].
    rewrite (Hok w' lines eq_refl). split; reflexivity.
  - destruct (Hfalla w' e eq_refl) as [_ Hr]. discriminate.
Qed.

(** An identifier listed with sequence number 0 is passed over. *)
Lemma para_cada_numero_cero (uid_map : gmap string Z) (l : list string) (q : Proceso W) :
  Forall (fun uid => uid_map !! uid = Some 0%Z) l ->
  para_cada (procesar_uid uid_map) l q = (q, Ok tt).
Proof.
  induction 1 as [|uid l Hu _ IH]; cbn [para_cada]; [reflexivity|].
  unfold bind, procesar_uid. rewrite Hu. cbn. exact IH.
Qed.

(** X9.  New identifiers listed with sequence number 0 are never fetched
    and never notified, yet the cycle records them as known, so no later cycle
    treats them as new while they stay known. *)
Theorem numero_cero_sin_aviso (p p1 : Proceso W) (act : gset string)
    (uid_map : gmap string Z) :
  sesion_y_listado p = (p1, Ok (act, uid_map)) ->
  primera_vuelta p = false ->
  act ∖ uids_conocidos p <> ∅ ->
  (forall uid, uid ∈ act ∖ uids_conocidos p -> uid_map !! uid = Some 0%Z) ->
  uids_conocidos (fst (ciclo p)) = act /\
  state (fst (ciclo p)) = state p /\
  notificaciones (traza (fst (ciclo p))) = notificaciones (traza p) /\
  descargas (traza (fst (ciclo p))) = descargas (traza p).
Proof.
  intros Hs Hpv Hnuevos Hcero.
  destruct (tras_sesion_y_listado _ _ _ Hs) as (Hst & _ & _ & _ & Hn1 & Hd1 & _).
  change (cumple ciclo p (fun p' _ =>
    uids_conocidos p' = act /\ state p' = state p /\
    notificaciones (traza p') = notificaciones (traza p) /\
    descargas (traza p') = descargas (traza p))).
  eapply cumple_ciclo_con_nuevos; [eassumption|assumption|assumption|].
  eapply cumple_eq.
  - apply para_cada_numero_cero. apply Forall_forall. intros uid Hin.
    apply Hcero. apply elem_of_elements. rewrite <- set_iter_perm.
    assumption.
  - intros q Hq _ Hsq Hnq Hdq. unfold inicio_bucle in *. revert Hsq Hnq Hdq. campos. trazas.
    intros Hsq Hnq Hdq. repeat split; congruence.
Qed.

End MasDelCiclo.

(** ** More on the chat controller *)

Section MasDelControlador.
Context {lib : Biblioteca} {W : Type} {ext : Exterior W}.

Ltac filtros := cbn [List.filter es_smtp es_pop3].

(** X10.  A chat turn never touches the mailbox side: the known
    identifiers, the first-turn flag and the configuration are as before,
    it makes no POP3 call and pushes no new-mail notification. *)
Theorem el_chat_no_toca_el_buzon (message : MensajeTg) (p : Proceso W) :
  uids_conocidos (fst (responder_chat message p)) = uids_conocidos p /\
  primera_vuelta (fst (responder_chat message p)) = primera_vuelta p /\
  config (fst (responder_chat message p)) = config p /\
  List.filter es_pop3 (traza (fst (responder_chat message p))) = List.filter es_pop3 (traza p) /\
  notificaciones (traza (fst (responder_chat message p))) = notificaciones (traza p).
Proof.
  change (cumple (responder_chat message) p (fun p' _ =>
    uids_conocidos p' = uids_conocidos p /\ primera_vuelta p' = primera_vuelta p /\
    config p' = config p /\
    List.filter es_pop3 (traza p') = List.filter es_pop3 (traza p) /\
    notificaciones (traza p') = notificaciones (traza p))).
  unfold responder_chat. cbv zeta. pasos.
  all: trazas; filtros; auto 6.
Qed.

(** X11.  Only a reply-drafting turn sends mail: a turn that starts with
    the ticket flag set or with the drafting flag clear opens no SMTP
    session, whatever the input says. *)
Theorem sin_dictado_no_hay_correo (message : MensajeTg) (p : Proceso W) :
  modo_ticket (state p) = true \/ modo_respuesta (state p) = false ->
  List.filter es_smtp (traza (fst (responder_chat message p))) = List.filter es_smtp (traza p).
Proof.
  intros Hm.
  change (cumple (responder_chat message) p (fun p' _ =>
    List.filter es_smtp (traza p') = List.filter es_smtp (traza p))).
  unfold responder_chat. cbv zeta. apply cumple_bind, cumple_leer. cbv beta.
  destruct (modo_ticket (state p)) eqn:Ht.
  - pasos. all: filtros; reflexivity.
  - destruct Hm as [|Hr]; [discriminate|]. rewrite Hr. pasos. all: filtros; reflexivity.
Qed.



(** An Idle turn, in full: what is written and what is called. *)
Lemma turno_idle (message : MensajeTg) (p : Proceso W) :
  modo (state p) = Some Idle ->
  cumple (responder_chat message) p
    (fun p' _ =>
       state p' =
         (if alguna_en afirmativos (str_lower (text message))
             && verdadero (ultimo_remitente (state p))
          then con_modo_respuesta true (state p) else state p) /\
       config p' = config p /\
       exists ok,
         if alguna_en afirmativos (str_lower (text message)) then
           traza p' =
             EvReplyTo message
               (if verdadero (ultimo_remitente (state p))
                then texto_con_gusto (ultimo_remitente (state p))
                else "🤷‍♀️ No hay correos recientes en memoria.") ok
             :: traza p
         else if alguna_en negativos (str_lower (text message)) then
           traza p' = EvReplyTo message "👍 Enterado. Quedo a la espera." ok :: traza p
         else
           (exists w w' t,
              generate_content (prompt_chat (text message)) w = (w', Ok t) /\
              traza p' = EvReplyTo message (str_strip t) ok
                         :: EvGemini (prompt_chat (text message)) true :: traza p) \/
           (exists e,
              traza p' = EvReplyTo message gemini_no_disponible ok
                         :: EvLog ERROR ("Fallo en API Vertex AI: " +:+ e_texto e)
                         :: EvGemini (prompt_chat (text message)) false :: traza p)).
Proof.
  intros Hm. destruct (modo_idle_inv _ Hm) as [Ht Hr].
  unfold responder_chat. cbv zeta. pasos.
  all: cbn [andb]; (split; [destruct (state p); reflexivity|]); (split; [reflexivity|]).
  all: eexists; try reflexivity.
  all: first [ left; do 3 eexists; split; [eassumption|reflexivity]
             | right; eexists; reflexivity ].
Qed.

(** X13.  An Idle turn enters the drafting mode exactly when the input
    holds an affirmative keyword and a sender is pending, and is Idle
    again otherwise; this holds even when the reply is not delivered.  It
    makes one reply: the invitation to dictate, the no-mail notice, the
    acknowledgement of a negative keyword, or the language model's answer
    (the placeholder when the model fails); the model is consulted only
    when no keyword matches, and affirmative keywords win over negative
    ones. *)
Theorem turno_en_idle (message : MensajeTg) (p : Proceso W) :
  modo (state p) = Some Idle ->
  modo (state (fst (responder_chat message p))) =
    Some (if alguna_en afirmativos (str_lower (text message))
             && verdadero (ultimo_remitente (state p))
          then AwaitingReplyDraft else Idle) /\
  exists ok,
    if alguna_en afirmativos (str_lower (text message)) then
      traza (fst (responder_chat message p)) =
        EvReplyTo message
          (if verdadero (ultimo_remitente (state p))
           then texto_con_gusto (ultimo_remitente (state p))
           else "🤷‍♀️ No hay correos recientes en memoria.") ok
        :: traza p
    else if alguna_en negativos (str_lower (text message)) then
      traza (fst (responder_chat message p)) =
        EvReplyTo message "👍 Enterado. Quedo a la espera." ok :: traza p
    else
      (exists w w' t,
         generate_content (prompt_chat (text message)) w = (w', Ok t) /\
         traza (fst (responder_chat message p)) =
           EvReplyTo message (str_strip t) ok
           :: EvGemini (prompt_chat (text message)) true :: traza p) \/
      (exists e,
         traza (fst (responder_chat message p)) =
           EvReplyTo message gemini_no_disponible ok
           :: EvLog ERROR ("Fallo en API Vertex AI: " +:+ e_texto e)
           :: EvGemini (prompt_chat (text message)) false :: traza p).
Proof.
  intros Hm. destruct (turno_idle message p Hm) as (Hst & _ & Htr).
  split; [|exact Htr]. rewrite Hst. destruct (modo_idle_inv _ Hm) as [Ht Hr].
  destruct (alguna_en afirmativos (str_lower (text message))
            && verdadero (ultimo_remitente (state p))).
  - unfold modo. cbn. now rewrite Ht.
  - exact Hm.
Qed.

End MasDelControlador.

(** ** From a new mail to its reply *)

Section DelCorreoALaRespuesta.
Context {lib : Biblioteca} {W : Type} {ext : Exterior W}.


End DelCorreoALaRespuesta.

(** ** Headers, bodies and the start-up *)

Section CabecerasYCuerpos.
Context {lib : Biblioteca} {W : Type} {ext : Exterior W}.

Lemma find_primero {A} (f : A -> bool) (pre post : list A) (x : A) :
  Forall (fun y => f y = false) pre -> f x = true ->
  find f (pre ++ x :: post)%list = Some x.
Proof.
  induction 1 as [|y pre Hy _ IH]; intros Hx; cbn [app find].
  - now rewrite Hx.
  - rewrite Hy. now apply IH.
Qed.

Lemma find_ninguno {A} (f : A -> bool) (l : list A) :
  Forall (fun y => f y = false) l -> find f l = None.
Proof.
  induction 1 as [|y l Hy _ IH]; cbn [find]; [reflexivity|]. now rewrite Hy.
Qed.

(** X15.  The body of a multipart message is read from its first
    text/plain part in walk order and from no other; when that part
    cannot be read or decoded, or when there is none, the body is the
    placeholder.  The extraction never raises, and logs only when it
    failed. *)
Theorem cuerpo_del_primer_texto_plano (msg : Mensaje) (p : Proceso W) :
  is_multipart msg = true ->
  (forall pre part post,
     walk msg = (pre ++ part :: post)%list ->
     Forall (fun x => (get_content_type x =? "text/plain") = false) pre ->
     (get_content_type part =? "text/plain") = true ->
     match get_payload part with
     | Ok payload =>
         match decodificar_texto payload (get_content_charset part) with
         | Ok body => obtener_cuerpo msg p = (p, Ok body)
         | Lanza e =>
             obtener_cuerpo msg p =
               (anotar (mundo p)
                  (EvLog ERROR ("Error parseando cuerpo del correo: " +:+ e_texto e)) p,
                Ok "Sin contenido legible.")
         end
     | Lanza e =>
         obtener_cuerpo msg p =
           (anotar (mundo p)
              (EvLog ERROR ("Error parseando cuerpo del correo: " +:+ e_texto e)) p,
            Ok "Sin contenido legible.")
     end) /\
  (Forall (fun x => (get_content_type x =? "text/plain") = false) (walk msg) ->
   obtener_cuerpo msg p = (p, Ok "Sin contenido legible.")).
Proof.
  intros Hmp. split.
  - intros pre part post Hw Hpre Hpart. unfold obtener_cuerpo, cuerpo_de.
    rewrite Hmp, Hw, (find_primero _ _ _ _ Hpre Hpart).
    destruct (get_payload part) as [payload|e]; [|reflexivity].
    destruct (decodificar_texto payload (get_content_charset part)); reflexivity.
  - intros Hno. unfold obtener_cuerpo, cuerpo_de.
    rewrite Hmp, (find_ninguno _ _ Hno). reflexivity.
Qed.

(** X16.  The subject shown to the operator.  Without a Subject header, or
    with an empty one, it is the placeholder.  Otherwise only the first
    chunk of the decoded header is used: a byte chunk that its charset
    cannot decode falls back to Latin-1; when the header cannot be split
    into chunks, or the charset name is unknown to the codec registry, the
    raw header is shown as it is. *)
Theorem asunto_mostrado (msg : Mensaje) :
  (verdadero (m_subject msg) = false ->
   fst (obtener_asunto_y_remitente msg) = "(Sin Asunto)") /\
  (forall raw, m_subject msg = Some raw -> raw <> "" ->
     (forall e, decode_header raw = Lanza e -> fst (obtener_asunto_y_remitente msg) = raw) /\
     (forall s enc resto,
        decode_header raw = Ok ((TStr s, enc) :: resto) ->
        fst (obtener_asunto_y_remitente msg) = s) /\
     (forall b enc resto,
        decode_header raw = Ok ((TBytes b, enc) :: resto) ->
        fst (obtener_asunto_y_remitente msg) =
          match bytes_decode (encoding_o_utf8 enc) b with
          | Ok s => s
          | Lanza e => if es_UnicodeDecodeError e then latin1_decode b else raw
          end)).
Proof.
  split.
  - intros Hv. unfold obtener_asunto_y_remitente. cbn [fst]. now rewrite Hv.
  - intros raw Hraw Hne.
    assert (Hv : verdadero (m_subject msg) = true).
    { rewrite Hraw. cbn [verdadero]. destruct (String.eqb_spec raw ""); [contradiction|reflexivity]. }
    unfold obtener_asunto_y_remitente, decodificar_asunto. cbn [fst].
    rewrite Hv, Hraw. cbn [fmt]. repeat split.
    + intros e ->. reflexivity.
    + intros s enc resto ->. reflexivity.
    + intros b enc resto ->. cbn [decodificar_texto].
      destruct (bytes_decode (encoding_o_utf8 enc) b) as [s|e]; [reflexivity|].
      destruct (es_UnicodeDecodeError e); reflexivity.
Qed.

(** X17.  How the top level of the module ends.  A port that is given and
    is no integer kills the process with the exception of [int], before
    the validation message, whatever else is set.  With a readable
    configuration whose four validated values are set, the process exits
    with status 1 after a critical log when the services cannot be
    initialised, and otherwise starts: Idle, with nothing pending, nothing
    known and the first-turn flag set.  The mail server and the chat id
    are not needed to start; the process runs with whatever the
    environment holds for them, even nothing. *)
Theorem desenlaces_del_arranque (env : gmap string string) (w : W) :
  (forall s e, env !! "EMAIL_PORT" = Some s -> py_int s = Lanza e ->
     arranque env w = Traceback e) /\
  (forall cfg, leer_config env = Ok cfg -> entorno_valido cfg = true ->
     (forall w' e, iniciar_servicios cfg w = (w', Lanza e) ->
        arranque env w =
          Sale 1 [EvLog CRITICAL ("Error inicializando servicios externos: " +:+ e_texto e)]) /\
     (forall w' u, iniciar_servicios cfg w = (w', Ok u) ->
        arranque env w =
          EnMarcha {| mundo := w'; config := cfg; state := estado_inicial;
                      uids_conocidos := ∅; primera_vuelta := true; traza := [] |} /\
        EMAIL_SERVER cfg = env !! "EMAIL_SERVER" /\
        TELEGRAM_CHAT_ID cfg = env !! "TELEGRAM_CHAT_ID")).
Proof.
  split.
  - intros s e Hp He. unfold arranque, leer_config. now rewrite Hp, He.
  - intros cfg Hc Hv. unfold arranque. rewrite Hc, Hv. cbn [negb]. split.
    + intros w' e ->. reflexivity.
    + intros w' u Hi. rewrite Hi. split; [reflexivity|].
      revert Hc. unfold leer_config.
      destruct (env !! "EMAIL_PORT") as [s|]; [destruct (py_int s)|]; intros Hc;
        inversion Hc; subst; split; reflexivity.
Qed.

End CabecerasYCuerpos.

(** * Concrete runs

    The results above, run on the reference library and the scripted
    worlds of [Ref]. *)

Import Ref.

(** ** The decoder *)

(** C5, at the failing input: with a charset name the codec registry does
    not know, [decodificar_texto] raises [LookupError] instead of returning
    the Latin-1 fallback; the same bytes decode for a known charset. *)
Lemma decodificar_texto_charset_desconocido :
  decodificar_texto (TBytes "hola") (Some "x-desconocido")
    = Lanza {| e_clase := LookupError; e_texto := "unknown encoding: x-desconocido" |} /\
  decodificar_texto (TBytes "hola") None = Ok "hola" /\
  latin1_decode "hola" = "hola".
Proof. repeat split; reflexivity. Qed.

(** ** The poll cycle *)






(** C2 fails on the code: with [A], [B] known and [B] deleted from the
    server, a successful cycle that finds nothing new keeps [B]. *)
Lemma sin_nuevos_no_resincroniza :
  snd (sesion_y_listado (ext := exterior_de guion_borrado)
         (proceso {["A"; "B"]} estado_inicial))
    = Ok ({["A"]}, {["A" := 1%Z]}) /\
  uids_conocidos (fst (ciclo (ext := exterior_de guion_borrado)
                         (proceso {["A"; "B"]} estado_inicial))) = {["A"; "B"]} /\
  ~ uids_conocidos (fst (ciclo (ext := exterior_de guion_borrado)
                           (proceso {["A"; "B"]} estado_inicial))) ⊆ {["A"]}.
Proof.
  split; [vm_compute; reflexivity|]. split; [vm_compute; reflexivity|].
  refine (bool_decide_eq_false_1 _ _). vm_compute. reflexivity.
Qed.

Lemma resincronizacion_tras_listado_testigo :
  uids_conocidos (fst (ciclo (ext := exterior_de guion_borrado)
                         (proceso {["A"; "B"]} estado_inicial))) = {["A"; "B"]} /\
  ({["A"]} : gset string) ⊆
    uids_conocidos (fst (ciclo (ext := exterior_de guion_borrado)
                           (proceso {["A"; "B"]} estado_inicial))).
Proof.
  refine (proj1 (proj2 (resincronizacion_tras_listado (ext := exterior_de guion_borrado)
            (proceso {["A"; "B"]} estado_inicial) _ {["A"]} _ _)) _ _).
  - vm_compute. reflexivity.
  - reflexivity.
  - vm_compute. reflexivity.
Defined.


Lemma ciclo_fallido_aislado_testigo :
  uids_conocidos (fst (ciclo (ext := exterior_de guion_sin_conexion)
                         (proceso {["A"; "B"]} estado_inicial))) = {["A"; "B"]} /\
  notificaciones (traza (fst (ciclo (ext := exterior_de guion_sin_conexion)
                                (proceso {["A"; "B"]} estado_inicial)))) = [].
Proof.
  pose proof (ciclo_fallido_aislado (ext := exterior_de guion_sin_conexion)
                (proceso {["A"; "B"]} estado_inicial) _ _ eq_refl) as H.
  exact (conj (proj1 (proj2 H)) (proj1 (proj2 (proj2 (proj2 (proj2 H)))))).
Defined.

(** ** The chat controller *)






Lemma telegram_fiable_guion (g : Guion) :
  (forall texto, g_telegram g texto = Ok tt) ->
  telegram_fiable (ext := exterior_de g).
Proof. intros Hg. repeat split; intros; cbn; auto. Qed.


(** C7 fails on the code: a reply-drafting turn whose draft holds a support
    keyword ends in AwaitingTicketConfirmation, not in Idle. *)
Lemma turno_de_dictado_arma_el_ticket :
  modo (state (proceso ∅ esperando_dictado)) = Some AwaitingReplyDraft /\
  snd (responder_chat (ext := exterior_de guion_ofrece_ticket)
         {| text := "la impresora ya funciona"; chat_id := 7 |}
         (proceso ∅ esperando_dictado)) = Ok tt /\
  modo (state (fst (responder_chat (ext := exterior_de guion_ofrece_ticket)
                      {| text := "la impresora ya funciona"; chat_id := 7 |}
                      (proceso ∅ esperando_dictado))))
    = Some AwaitingTicketConfirmation /\
  modo (state (fst (responder_chat (ext := exterior_de guion_ofrece_ticket)
                      {| text := "la impresora ya funciona"; chat_id := 7 |}
                      (proceso ∅ esperando_dictado))))
    <> Some Idle.
Proof.
  split; [reflexivity|]. split; [vm_compute; reflexivity|].
  split; [vm_compute; reflexivity|]. vm_compute. discriminate.
Qed.

Lemma modos_entre_turnos_testigo :
  modo (state (fst (responder_chat (ext := exterior_de guion_ok)
                      {| text := "claro"; chat_id := 7 |}
                      (proceso ∅ esperando_ticket)))) = Some Idle /\
  is_Some (modo (state (fst (responder_chat (ext := exterior_de guion_ofrece_ticket)
                               {| text := "la impresora ya funciona"; chat_id := 7 |}
                               (proceso ∅ esperando_dictado))))).
Proof.
  split.
  - apply (proj1 (proj2 (proj2 (proj2 (modos_entre_turnos (ext := exterior_de guion_ok)))))).
    + apply telegram_fiable_guion. reflexivity.
    + reflexivity.
  - apply (proj1 (proj2 (modos_entre_turnos (ext := exterior_de guion_ofrece_ticket)))).
    eexists. reflexivity.
Defined.

Lemma pendientes_intactos_testigo :
  modo (state (fst (responder_chat (ext := exterior_de guion_ok)
                      {| text := "Ok, responder"; chat_id := 7 |}
                      (charla (ext := exterior_de guion_ok)
                         [{| text := "sí"; chat_id := 7 |};
                          {| text := "la impresora ya funciona"; chat_id := 7 |}]
                         (proceso ∅ con_pendiente)))))
    = Some AwaitingReplyDraft /\
  ultimo_remitente
    (state (fst (responder_chat (ext := exterior_de guion_ok)
                   {| text := "Ok, responder"; chat_id := 7 |}
                   (charla (ext := exterior_de guion_ok)
                      [{| text := "sí"; chat_id := 7 |};
                       {| text := "la impresora ya funciona"; chat_id := 7 |}]
                      (proceso ∅ con_pendiente)))))
    = Some "ana@x.com".
Proof.
  pose proof (proj2 (pendientes_intactos (ext := exterior_de guion_ok)
                [{| text := "sí"; chat_id := 7 |};
                 {| text := "la impresora ya funciona"; chat_id := 7 |}]
                {| text := "Ok, responder"; chat_id := 7 |}
                (proceso ∅ con_pendiente))) as H.
  refine ((fun K => conj (proj1 K) (proj1 (proj2 K))) (H _ _ _)).
  - reflexivity.
  - vm_compute. reflexivity.
  - vm_compute. reflexivity.
Defined.

Lemma borrador_sin_modelo_testigo :
  alguna_en keywords (str_lower gemini_no_disponible) = false /\
  snd (responder_chat (ext := exterior_de guion_sin_modelo)
         {| text := "la impresora ya funciona"; chat_id := 7 |}
         (proceso ∅ esperando_dictado)) = Ok tt /\
  exists ok,
    In (EvSmtp {| c_subject := "Re: Impresora"; c_from := Some "jared@x.com";
                  c_to := Some "ana@x.com"; c_body := gemini_no_disponible |} ok)
       (traza (fst (responder_chat (ext := exterior_de guion_sin_modelo)
                      {| text := "la impresora ya funciona"; chat_id := 7 |}
                      (proceso ∅ esperando_dictado)))) /\
    modo_ticket (state (fst (responder_chat (ext := exterior_de guion_sin_modelo)
                               {| text := "la impresora ya funciona"; chat_id := 7 |}
                               (proceso ∅ esperando_dictado))))
      = ok && alguna_en keywords (str_lower gemini_no_disponible) /\
    modo_respuesta (state (fst (responder_chat (ext := exterior_de guion_sin_modelo)
                                  {| text := "la impresora ya funciona"; chat_id := 7 |}
                                  (proceso ∅ esperando_dictado)))) = false.
Proof.
  split; [vm_compute; reflexivity|].
  apply (borrador_sin_modelo (ext := exterior_de guion_sin_modelo)
           {| text := "la impresora ya funciona"; chat_id := 7 |}
           (proceso ∅ esperando_dictado)).
  - apply telegram_fiable_guion. reflexivity.
  - reflexivity.
  - intros w. reflexivity.
Defined.

(** ** The start-up *)



(** C8 fails on the code: with no mail port and no model location in the
    environment the process starts, on port 995 and in us-central1. *)
Lemma arranque_sin_puerto_ni_region :
  entorno_sin_puerto !! "EMAIL_PORT" = None /\
  entorno_sin_puerto !! "GOOGLE_CLOUD_LOCATION" = None /\
  arranque (ext := exterior_de guion_ok) entorno_sin_puerto tt =
    EnMarcha {| mundo := tt; config := config_ref; state := estado_inicial;
                uids_conocidos := ∅; primera_vuelta := true; traza := [] |}.
Proof. repeat split; vm_compute; reflexivity. Qed.

Lemma validacion_de_arranque_testigo :
  en_marcha (arranque (ext := exterior_de guion_ok) entorno_sin_token tt) = false /\
  arranque (ext := exterior_de guion_ok) entorno_sin_token tt =
    Sale 1 [EvPrint "CRITICAL: Faltan variables de entorno. Revise el archivo .env"].
Proof.
  destruct (proj1 (validacion_de_arranque (ext := exterior_de guion_ok) entorno_sin_token tt))
    as [H1 H2].
  - left. vm_compute. reflexivity.
  - split; [exact H1|]. eapply H2. vm_compute. reflexivity.
Defined.

(** ** Further properties, run *)

Lemma direccion_limpia_testigo :
  limpiar_remitente "Jane Doe <jane@x.com>" = "jane@x.com" /\
  limpiar_remitente "jane@x.com" = "jane@x.com" /\
  contiene ">" (limpiar_remitente "a <b> <c>") = false.
Proof.
  split; [|split].
  - exact (proj1 (proj2 direccion_limpia) "Jane Doe " "jane@x.com" ""
             eq_refl eq_refl eq_refl eq_refl).
  - exact (proj1 direccion_limpia "jane@x.com" eq_refl).
  - exact (proj2 (proj2 (proj2 direccion_limpia) "a <b> <c>" eq_refl)).
Defined.

Lemma linea_sin_espacio_ignorada_testigo :
  leer_items ["1 A"; "basura"; "2 B"] ∅ ∅ = leer_items ["1 A"; "2 B"] ∅ ∅.
Proof.
  exact (linea_sin_espacio_ignorada ["1 A"] ["2 B"] "basura" "basura" ∅ ∅ eq_refl eq_refl).
Defined.

Lemma listado_coherente_testigo :
  ({["A"; "B"; "C"]} : gset string)
    = dom ({["A" := 1%Z; "B" := 2%Z; "C" := 3%Z]} : gmap string Z).
Proof.
  refine (proj1 (listado_coherente (ext := exterior_de guion_ok)
                   (proceso ∅ estado_inicial) _ _ _)).
  vm_compute. reflexivity.
Defined.

Lemma sincronizacion_inicial_testigo :
  uids_conocidos (fst (ciclo (ext := exterior_de guion_ok) proceso_nuevo)) = {["A"; "B"; "C"]} /\
  List.filter es_telegram (traza (fst (ciclo (ext := exterior_de guion_ok) proceso_nuevo))) = [].
Proof.
  epose proof (sincronizacion_inicial (ext := exterior_de guion_ok) proceso_nuevo _
                {["A"; "B"; "C"]} _) as H.
  refine ((fun K => conj (proj1 (proj2 K)) (proj1 (proj2 (proj2 (proj2 (proj2 (proj2 K)))))))
            (H _ _)).
  - vm_compute. reflexivity.
  - reflexivity.
Defined.

Lemma a_lo_sumo_una_notificacion_por_nuevo_testigo :
  exists nuevas,
    notificaciones (traza (fst (ciclo (ext := exterior_de guion_ok)
                                  (proceso {["A"; "B"]} estado_inicial))))
      = (nuevas ++ notificaciones (traza (proceso {["A"; "B"]} estado_inicial)))%list /\
    length nuevas <= size (({["A"; "B"; "C"]} : gset string)
                             ∖ uids_conocidos (proceso {["A"; "B"]} estado_inicial)).
Proof.
  refine (a_lo_sumo_una_notificacion_por_nuevo (ext := exterior_de guion_ok)
            (proceso {["A"; "B"]} estado_inicial) _ {["A"; "B"; "C"]} _ _ _).
  - vm_compute. reflexivity.
  - reflexivity.
Defined.


Lemma el_ultimo_correo_gana_testigo :
  exists w w' lines,
    pop_retr (Exterior := exterior_de guion_ok) 3 w = (w', Ok lines) /\
    ultimo_remitente
      (state (fst (para_cada (procesar_uid (ext := exterior_de guion_ok)
                                {["B" := 2%Z; "C" := 3%Z]})
                     ["B"; "C"] (proceso {["A"]} estado_inicial))))
      = Some (limpiar_remitente
                (snd (obtener_asunto_y_remitente
                        (message_from_bytes (String.concat crlf lines))))) /\
    ultimo_asunto
      (state (fst (para_cada (procesar_uid (ext := exterior_de guion_ok)
                                {["B" := 2%Z; "C" := 3%Z]})
                     ["B"; "C"] (proceso {["A"]} estado_inicial))))
      = Some (fst (obtener_asunto_y_remitente
                     (message_from_bytes (String.concat crlf lines)))).
Proof.
  refine (el_ultimo_correo_gana (ext := exterior_de guion_ok) {["B" := 2%Z; "C" := 3%Z]}
            ["B"] "C" 3 (proceso {["A"]} estado_inicial) _ _ _ _).
  - reflexivity.
  - discriminate.
  - vm_compute. reflexivity.
Defined.

Lemma numero_cero_sin_aviso_testigo :
  uids_conocidos (fst (ciclo (ext := exterior_de guion_numero_cero)
                         (proceso {["A"]} estado_inicial))) = {["A"; "C"]} /\
  notificaciones (traza (fst (ciclo (ext := exterior_de guion_numero_cero)
                                (proceso {["A"]} estado_inicial)))) = [].
Proof.
  epose proof (numero_cero_sin_aviso (ext := exterior_de guion_numero_cero)
                (proceso {["A"]} estado_inicial) _ {["A"; "C"]} {["A" := 1%Z; "C" := 0%Z]}) as H.
  refine ((fun K => conj (proj1 K) (proj1 (proj2 (proj2 K)))) (H _ _ _ _)).
  - vm_compute. reflexivity.
  - reflexivity.
  - refine (bool_decide_eq_false_1 _ _). vm_compute. reflexivity.
  - intros uid Hu.
    assert (Hc : uid = "C").
    { apply elem_of_difference in Hu as [Hu Hno]. cbn [uids_conocidos proceso] in Hno.
      apply elem_of_union in Hu as [Hu|Hu]; [contradiction|].
      now apply elem_of_singleton in Hu. }
    subst uid. reflexivity.
Defined.

Lemma sin_dictado_no_hay_correo_testigo :
  List.filter es_smtp
    (traza (fst (responder_chat (ext := exterior_de guion_ok)
                   {| text := "claro, hazlo"; chat_id := 7 |}
                   (proceso ∅ esperando_ticket)))) = [].
Proof.
  refine (sin_dictado_no_hay_correo (ext := exterior_de guion_ok)
            {| text := "claro, hazlo"; chat_id := 7 |} (proceso ∅ esperando_ticket) _).
  left. reflexivity.
Defined.


Lemma turno_en_idle_testigo :
  modo (state (fst (responder_chat (ext := exterior_de guion_ok)
                      {| text := "Sí, por favor"; chat_id := 7 |}
                      (proceso ∅ con_pendiente)))) = Some AwaitingReplyDraft /\
  modo (state (fst (responder_chat (ext := exterior_de guion_ok)
                      {| text := "Sí, por favor"; chat_id := 7 |}
                      (proceso ∅ estado_inicial)))) = Some Idle.
Proof.
  split.
  - exact (proj1 (turno_en_idle (ext := exterior_de guion_ok)
                    {| text := "Sí, por favor"; chat_id := 7 |}
                    (proceso ∅ con_pendiente) eq_refl)).
  - exact (proj1 (turno_en_idle (ext := exterior_de guion_ok)
                    {| text := "Sí, por favor"; chat_id := 7 |}
                    (proceso ∅ estado_inicial) eq_refl)).
Defined.


Lemma cuerpo_del_primer_texto_plano_testigo :
  obtener_cuerpo mensaje_multiparte (proceso ∅ estado_inicial)
    = (proceso ∅ estado_inicial, Ok "uno").
Proof.
  refine (proj1 (cuerpo_del_primer_texto_plano mensaje_multiparte
                   (proceso ∅ estado_inicial) eq_refl)
            [m_raiz mensaje_multiparte; {| get_content_type := "text/html";
                                           get_payload := Ok (TBytes "<p>uno</p>");
                                           get_content_charset := Some "utf-8" |}]
            {| get_content_type := "text/plain"; get_payload := Ok (TBytes "uno");
               get_content_charset := Some "utf-8" |}
            [{| get_content_type := "text/plain"; get_payload := Ok (TBytes "dos");
                get_content_charset := Some "utf-8" |}]
            eq_refl _ eq_refl).
  repeat constructor.
Defined.

Lemma asunto_mostrado_testigo :
  fst (obtener_asunto_y_remitente mensaje_multiparte) = "Hola".
Proof.
  refine (proj1 (proj2 (proj2 (asunto_mostrado mensaje_multiparte) "Hola" eq_refl _))
            "Hola" None [] eq_refl).
  discriminate.
Defined.

Lemma desenlaces_del_arranque_testigo :
  exists cfg,
    arranque (ext := exterior_de guion_ok) entorno_minimo tt =
      EnMarcha {| mundo := tt; config := cfg; state := estado_inicial;
                  uids_conocidos := ∅; primera_vuelta := true; traza := [] |} /\
    EMAIL_SERVER cfg = None /\ TELEGRAM_CHAT_ID cfg = None.
Proof.
  eexists.
  refine (proj2 (proj2 (desenlaces_del_arranque (ext := exterior_de guion_ok) entorno_minimo tt)
                   _ _ _) tt tt _).
  - vm_compute. reflexivity.
  - reflexivity.
  - reflexivity.
Defined.
